(** * search: query compilation and execution against the search backend

    A shallow embedding of the query file of the Go package [search]: the
    pagination guard [checkParams], the seven [Do...] operations that build
    a boolean query document and the executor [doSearch].

    Conventions of the embedding:
    - a Go [int] is a [Z] with the wrap-around of its additions written out;
    - a Go slice is an [option (list _)], [None] being the nil slice;
    - [map[string]interface{}] is a [gmap string value];
    - a Go [error] result is an [option error], [None] being nil, and a
      pointer result [*EsSearchResponse] is an [option EsSearchResponse];
    - the calls an operation makes to its collaborators are recorded, in
      program order, in a trace of events (the [Traced] monad).
    - a [time.Time] is the record of its date, clock and zone offset, and
      its text in the atproto layout is computed as Go's [Format] does
      (module [time]); the operations take the type of instants and their
      formatting from the world they run in.
    Tracing spans and log lines ([tracer.Start], [span.SetAttributes],
    [slog]) are observability only and are left out. *)

From Stdlib Require Import ZArith QArith Lia Ascii.
From stdpp Require Import gmap strings list fin_maps pretty.

Local Open Scope string_scope.
Local Open Scope list_scope.
Local Open Scope Z_scope.

(** ** The Go runtime the package relies on *)

Module Go.

(** [int] on the 64-bit targets the service is built for. *)
Definition intSize : Z := 64.

(** Two's complement wrap-around of a mathematical integer into [int]. *)
Definition wrap (z : Z) : Z :=
  (z + 2 ^ (intSize - 1)) mod 2 ^ intSize - 2 ^ (intSize - 1).

(** [a + b] on [int]. *)
Definition add (a b : Z) : Z := wrap (a + b).

(** A slice: [None] is the nil slice, [Some l] a non-nil slice. *)
Definition slice (A : Type) : Type := option (list A).

(** The elements of a slice, nil having none. *)
Definition elems {A : Type} (s : slice A) : list A :=
  match s with
  | None => []
  | Some l => l
  end.

(** [len(s)]. *)
Definition len {A : Type} (s : slice A) : Z := Z.of_nat (length (elems s)).

(** [append(s, x)]: the result is never nil. *)
Definition append {A : Type} (s : slice A) (x : A) : slice A :=
  Some (elems s ++ [x]).

(** [[]byte]. *)
Definition bytes : Type := list Byte.byte.

(** Error values: [errorString] is what [fmt.Errorf] returns for a format
    without [%w], [wrapError] what it returns with [%w] (the formatted
    message and the wrapped cause). *)
Inductive error : Type :=
| errorString (s : string)
| wrapError (msg : string) (err : error).

(** [e.Error()]. *)
Definition Error (e : error) : string :=
  match e with
  | errorString s => s
  | wrapError msg _ => msg
  end.

(** [errors.Unwrap(e)]. *)
Definition Unwrap (e : error) : option error :=
  match e with
  | errorString _ => None
  | wrapError _ err => Some err
  end.

(** [fmt.Errorf(msg)] for a message without verbs. *)
Definition Errorf (msg : string) : error := errorString msg.

(** [fmt.Errorf(prefix + "%d", n)]: the integer printed in decimal. *)
Definition Errorf_d (prefix : string) (n : Z) : error :=
  errorString (prefix +:+ pretty n).

(** [fmt.Errorf(prefix + "%w", err)]. *)
Definition Errorf_w (prefix : string) (err : error) : error :=
  wrapError (prefix +:+ Error err) err.

End Go.

Import Go.

(** ** Go's [time.Time] and the atproto layout *)

Module time.

(** A [time.Time], given by what [t.Date()], [t.Clock()], [t.Nanosecond()]
    and [t.Zone()] return: the date and the clock as read in the time's own
    location, and the offset of that location in seconds east of UTC. *)
Record Time : Type := {
  Year : Z;
  Month : Z;
  Day : Z;
  Hour : Z;
  Minute : Z;
  Second : Z;
  Nanosecond : Z;
  ZoneOffset : Z;
}.

Fixpoint zeros (n : nat) : string :=
  match n with
  | O => ""
  | S n' => String "0"%char (zeros n')
  end.

(** [appendInt(b, x, width)]: a minus sign for a negative [x], then the
    decimal digits of its absolute value, padded with zeros on the left up
    to [width] digits. *)
Definition appendInt (x : Z) (width : nat) : string :=
  let digits := pretty (Z.to_N (Z.abs x)) in
  (if x <? 0 then "-" else "")
  +:+ zeros (width - String.length digits) +:+ digits.

(** The loop that drops the zeros at the end of the buffer. *)
Fixpoint trimZeros (b : string) : string :=
  match b with
  | "" => ""
  | String c b' =>
      match trimZeros b' with
      | "" => if Ascii.eqb c "0" then "" else String c ""
      | t => String c t
      end
  end.

(** [appendNano(b, nanosec, std)] for a fraction written [.999...] with [n]
    nines: nothing for a zero [nanosec]; else a dot and the first [n] of
    the nine digits, then the zeros at the end dropped, and the dot too
    when no digit is left. *)
Definition appendNano (nanosec : Z) (n : nat) : string :=
  if nanosec =? 0 then ""
  else
    let b := String "."%char (String.substring 0 n (appendInt nanosec 9)) in
    let b := trimZeros b in
    if String.eqb b "." then "" else b.

(** [t.Format(syntax.AtprotoDatetimeLayout)], the layout being
    [2006-01-02T15:04:05.999Z]: year, month, day, hour, minute and second
    of the time in its own location, a fraction of at most three digits,
    and the letter Z, which in this layout is plain text and not a zone. *)
Definition Format (t : Time) : string :=
  appendInt (Year t) 4 +:+ "-" +:+ appendInt (Month t) 2 +:+ "-"
  +:+ appendInt (Day t) 2 +:+ "T" +:+ appendInt (Hour t) 2 +:+ ":"
  +:+ appendInt (Minute t) 2 +:+ ":" +:+ appendInt (Second t) 2
  +:+ appendNano (Nanosecond t) 3 +:+ "Z".

End time.

(** ** Values of type [interface{}] that make up a query document *)

Unset Elimination Schemes.
Inductive value : Type :=
| VBool (b : bool)
| VInt (n : Z)
| VFloat (q : Q)
| VString (s : string)
| VSlice (s : slice value)
| VMap (m : gmap string value).
Set Elimination Schemes.

(** A [[]string] stored in a document. *)
Definition VStrings (s : slice string) : value :=
  VSlice (option_map (map VString) s).

(** A [[]map[string]interface{}] stored in a document. *)
Definition VMaps (s : slice (gmap string value)) : value :=
  VSlice (option_map (map VMap) s).

(** [v[k]] when [v] is a map. *)
Definition field (k : string) (v : value) : option value :=
  match v with
  | VMap m => m !! k
  | _ => None
  end.

(** [v[k1][k2]...] along a path of keys. *)
Fixpoint path (ks : list string) (v : value) : option value :=
  match ks with
  | [] => Some v
  | k :: ks' =>
      match field k v with
      | Some v' => path ks' v'
      | None => None
      end
  end.

(** ** Request and response types *)

Record EsSearchHit : Type := {
  hit_Index : string;
  hit_ID : string;
  hit_Score : Q;
  hit_Source : bytes;
}.

Record EsSearchHits : Type := {
  Total_Value : Z;
  Total_Relation : string;
  MaxScore : Q;
  Hits_Hits : slice EsSearchHit;
}.

Record EsSearchResponse : Type := {
  Took : Z;
  TimedOut : bool;
  Hits : EsSearchHits;
}.

(** [PostSearchQuery], over the type of [time.Time]. *)
Record PostSearchQuery (Time : Type) : Type := {
  post_Query : string;
  post_Offset : Z;
  post_Size : Z;
  post_From : option Time;
  post_To : option Time;
  post_Actors : slice string;
  post_Tags : slice string;
  post_Langs : slice string;
}.
Arguments post_Query {Time} _.
Arguments post_Offset {Time} _.
Arguments post_Size {Time} _.
Arguments post_From {Time} _.
Arguments post_To {Time} _.
Arguments post_Actors {Time} _.
Arguments post_Tags {Time} _.
Arguments post_Langs {Time} _.

Record ActorSearchQuery : Type := {
  actor_Query : string;
  actor_Following : slice string;
  actor_Offset : Z;
  actor_Size : Z;
  actor_Typeahead : bool;
}.

(** ** The pagination guard *)

Definition checkParams (offset size : Z) : option error :=
  if (Go.add offset size >? 10000) || (size >? 250) || (offset >? 10000)
     || (offset <? 0) || (size <? 0)
  then Some (Errorf "disallowed size/offset parameters")
  else None.

(** ** The backend client and the other collaborators *)

(** [opensearchapi.Response]: the status code and the body stream. *)
Record Response : Type := {
  StatusCode : Z;
  Body : bytes;
}.

(** [res.IsError()], the client library's method:
    [return r.StatusCode > 299]. *)
Definition IsError (res : Response) : bool := StatusCode res >? 299.

(** What an operation calls outside itself, for one run:
    - [Format t] is [t.Format(syntax.AtprotoDatetimeLayout)];
    - [ParseQuery dir q] is the free-text normalizer of the package, with
      the identity directory it consults;
    - [DatetimeNow] is the reading of the clock by [syntax.DatetimeNow()];
    - [Marshal] is [json.Marshal] and [Decode] is
      [json.NewDecoder(body).Decode(&out)];
    - [Search escli index body] is what the call of [escli.Search] with
      that index and body returns. *)
Class World : Type := {
  Time : Type;
  Directory : Type;
  Client : Type;
  Format : Time -> string;
  ParseQuery : Directory -> string -> string * slice (gmap string value);
  DatetimeNow : string;
  Marshal : value -> error + bytes;
  Search : Client -> string -> bytes -> error + Response;
  Decode : bytes -> error + EsSearchResponse;
}.

(** ** Traces of calls *)

Inductive Event : Type :=
| EvCheckParams (offset size : Z)
| EvParseQuery (q : string)
| EvDatetimeNow
| EvMarshal (query : value)
| EvSearch (index : string) (body : bytes)
| EvDecode (body : bytes).

(** A computation that returns [result] after making the calls of
    [trace], oldest first. *)
Record Traced (A : Type) : Type := traced {
  result : A;
  trace : list Event;
}.
Arguments traced {A} _ _.
Arguments result {A} _.
Arguments trace {A} _.

#[global] Instance Traced_ret : MRet Traced := λ A x, traced x [].

#[global] Instance Traced_bind : MBind Traced := λ A B f m,
  let r := f (result m) in traced (result r) (trace m ++ trace r).

Definition emit (e : Event) : Traced unit := traced () [e].

(** The calls of [escli.Search] made during a run, each with its index
    and body (what the client library sends for one call is its own
    matter). *)
Definition submitted (t : list Event) : list (string * bytes) :=
  omap (λ e, match e with EvSearch i b => Some (i, b) | _ => None end) t.

(** The query documents handed to the executor during a run. *)
Definition compiled (t : list Event) : list value :=
  omap (λ e, match e with EvMarshal d => Some d | _ => None end) t.

(** The arguments of the guard calls made during a run. *)
Definition checked (t : list Event) : list (Z * Z) :=
  omap (λ e, match e with EvCheckParams o s => Some (o, s) | _ => None end) t.

(** What every operation returns: the pair of a pointer to an
    [EsSearchResponse] and an [error]. *)
Definition Result : Type := option EsSearchResponse * option error.

(** ** The executor and the seven operations *)

Section Operations.
Context `{W : World}.

(** The calls, each leaving its event. *)
Definition callCheckParams (offset size : Z) : Traced (option error) :=
  emit (EvCheckParams offset size);; mret (checkParams offset size).

Definition callParseQuery (dir : Directory) (q : string)
  : Traced (string * slice (gmap string value)) :=
  emit (EvParseQuery q);; mret (ParseQuery dir q).

Definition callDatetimeNow : Traced string :=
  emit EvDatetimeNow;; mret DatetimeNow.

Definition callMarshal (query : value) : Traced (error + bytes) :=
  emit (EvMarshal query);; mret (Marshal query).

Definition callSearch (escli : Client) (index : string) (body : bytes)
  : Traced (error + Response) :=
  emit (EvSearch index body);; mret (Search escli index body).

Definition callDecode (body : bytes) : Traced (error + EsSearchResponse) :=
  emit (EvDecode body);; mret (Decode body).

Definition doSearch (escli : Client) (index : string) (query : value)
  : Traced Result :=
  b ← callMarshal query;
  match b with
  | inl err => mret (None, Some (Errorf_w "failed to serialize query: " err))
  | inr b =>
      res ← callSearch escli index b;
      match res with
      | inl err => mret (None, Some (Errorf_w "search query error: " err))
      | inr res =>
          if IsError res
          then mret (None, Some (Errorf_d "search query error, code="
                                          (StatusCode res)))
          else
            out ← callDecode (Body res);
            match out with
            | inl err =>
                mret (None, Some (Errorf_w "decoding search response: " err))
            | inr out => mret (Some out, None)
            end
      end
  end.

(** The [basic] clause that the post and profile operations build. *)
Definition basicClause (queryStr : string) : gmap string value :=
  {[ "simple_query_string" := VMap
       {[ "query" := VString queryStr;
          "fields" := VStrings (Some ["everything"]);
          "flags" := VString "AND|NOT|OR|PHRASE|PRECEDENCE|WHITESPACE";
          "default_operator" := VString "and";
          "lenient" := VBool true;
          "analyze_wildcard" := VBool false ]} ]}.

(** A [{"terms": {key: set}}] clause. *)
Definition termsFilter (key : string) (set : slice string)
  : gmap string value :=
  {[ "terms" := VMap {[ key := VStrings set ]} ]}.

(** The [createdAtRange] map of [DoStructuredSearchPosts]: created with
    [lte], then assigned [gte] and [lte] from the request. *)
Definition createdAtRange (now : string) (q : PostSearchQuery Time)
  : gmap string value :=
  let createdAtRange : gmap string value := {[ "lte" := VString now ]} in
  let createdAtRange :=
    match post_From q with
    | Some t => <[ "gte" := VString (Format t) ]> createdAtRange
    | None => createdAtRange
    end in
  match post_To q with
  | Some t => <[ "lte" := VString (Format t) ]> createdAtRange
  | None => createdAtRange
  end.

(** The filter list of [DoStructuredSearchPosts], from the normalizer's
    filters on. *)
Definition structuredPostFilters (now : string) (q : PostSearchQuery Time)
  (filters : slice (gmap string value)) : slice (gmap string value) :=
  let timeRangeFilter : gmap string value :=
    {[ "range" := VMap {[ "created_at" := VMap (createdAtRange now q) ]} ]} in
  let filters := append filters timeRangeFilter in
  let filters :=
    if len (post_Actors q) >? 0
    then append filters (termsFilter "did" (post_Actors q)) else filters in
  let filters :=
    if len (post_Tags q) >? 0
    then append filters (termsFilter "tag" (post_Tags q)) else filters in
  if len (post_Langs q) >? 0
  then append filters (termsFilter "lang" (post_Langs q)) else filters.

(** The document the two post operations send. *)
Definition postsQuery (basic : gmap string value)
  (filters : slice (gmap string value)) (size offset : Z) : value :=
  VMap {[ "query" := VMap {[ "bool" := VMap
            {[ "must" := VMap basic; "filter" := VMaps filters ]} ]};
          "sort" := VMap {[ "created_at" := VMap
            {[ "order" := VString "desc" ]} ]};
          "size" := VInt size;
          "from" := VInt offset ]}.

Definition DoStructuredSearchPosts (dir : Directory) (escli : Client)
  (index : string) (q : PostSearchQuery Time) : Traced Result :=
  err ← callCheckParams (post_Offset q) (post_Size q);
  match err with
  | Some err => mret (None, Some err)
  | None =>
      '(queryStr, filters) ← callParseQuery dir (post_Query q);
      let basic := basicClause queryStr in
      now ← callDatetimeNow;
      let filters := structuredPostFilters now q filters in
      doSearch escli index
        (postsQuery basic filters (post_Size q) (post_Offset q))
  end.

Definition DoSearchPosts (dir : Directory) (escli : Client)
  (index q : string) (offset size : Z) : Traced Result :=
  err ← callCheckParams offset size;
  match err with
  | Some err => mret (None, Some err)
  | None =>
      '(queryStr, filters) ← callParseQuery dir q;
      let basic := basicClause queryStr in
      now ← callDatetimeNow;
      let filters := append filters
        {[ "range" := VMap {[ "created_at" := VMap
             {[ "lte" := VString now ]} ]} ]} in
      doSearch escli index (postsQuery basic filters size offset)
  end.

(** The [sort] map of the profile and typeahead operations. *)
Definition pagerankSort : gmap string value :=
  {[ "pagerank" := VMap {[ "order" := VString "desc" ]} ]}.

(** The document the two profile operations send. *)
Definition profilesQuery (basic : gmap string value)
  (filters : slice (gmap string value)) (size offset : Z) : value :=
  VMap {[ "query" := VMap {[ "bool" := VMap
            {[ "must" := VMap basic;
               "should" := VSlice (Some
                 [ VMap {[ "term" := VMap {[ "has_avatar" := VBool true ]} ]};
                   VMap {[ "term" := VMap {[ "has_banner" := VBool true ]} ]}
                 ]);
               "minimum_should_match" := VInt 0;
               "filter" := VMaps filters;
               "boost" := VFloat (1 # 2) ]} ]};
          "size" := VInt size;
          "from" := VInt offset;
          "sort" := VMap pagerankSort ]}.

Definition DoSearchProfiles (dir : Directory) (escli : Client)
  (index q : string) (offset size : Z) : Traced Result :=
  err ← callCheckParams offset size;
  match err with
  | Some err => mret (None, Some err)
  | None =>
      '(queryStr, filters) ← callParseQuery dir q;
      let basic := basicClause queryStr in
      doSearch escli index (profilesQuery basic filters size offset)
  end.

Definition DoStructuredSearchProfiles (dir : Directory) (escli : Client)
  (index : string) (q : ActorSearchQuery) : Traced Result :=
  err ← callCheckParams (actor_Offset q) (actor_Size q);
  match err with
  | Some err => mret (None, Some err)
  | None =>
      '(queryStr, filters) ← callParseQuery dir (actor_Query q);
      let basic := basicClause queryStr in
      let filters :=
        if len (actor_Following q) >? 0
        then append filters (termsFilter "did" (actor_Following q))
        else filters in
      doSearch escli index
        (profilesQuery basic filters (actor_Size q) (actor_Offset q))
  end.

(** The [multi_match] clause of the two typeahead operations. *)
Definition multiMatch (q : string) : gmap string value :=
  {[ "multi_match" := VMap
       {[ "query" := VString q;
          "type" := VString "bool_prefix";
          "operator" := VString "and";
          "fields" := VStrings (Some
            ["typeahead"; "typeahead._2gram"; "typeahead._3gram"]) ]} ]}.

Definition DoSearchProfilesTypeahead (escli : Client) (index q : string)
  (size : Z) : Traced Result :=
  err ← callCheckParams 0 size;
  match err with
  | Some err => mret (None, Some err)
  | None =>
      let query := VMap
        {[ "query" := VMap (multiMatch q);
           "size" := VInt size;
           "sort" := VMap pagerankSort ]} in
      doSearch escli index query
  end.

Definition DoStructuredSearchProfilesTypeahead (escli : Client)
  (index : string) (q : ActorSearchQuery) : Traced Result :=
  err ← callCheckParams (actor_Offset q) (actor_Size q);
  match err with
  | Some err => mret (None, Some err)
  | None =>
      let filters : slice (gmap string value) := None in
      let filters :=
        if len (actor_Following q) >? 0
        then append filters (termsFilter "did" (actor_Following q))
        else filters in
      let query := VMap
        {[ "query" := VMap {[ "bool" := VMap
             {[ "must" := VMap (multiMatch (actor_Query q));
                "filter" := VMaps filters ]} ]};
           "size" := VInt (actor_Size q);
           "from" := VInt (actor_Offset q);
           "sort" := VMap pagerankSort ]} in
      doSearch escli index query
  end.

Definition DoSearchGeneric (escli : Client) (index q : string)
  : Traced Result :=
  let query := VMap
    {[ "query" := VMap {[ "query_string" := VMap
         {[ "query" := VString q;
            "default_operator" := VString "and";
            "analyze_wildcard" := VBool true;
            "allow_leading_wildcard" := VBool false;
            "lenient" := VBool true;
            "default_field" := VString "everything" ]} ]} ]} in
  doSearch escli index query.

End Operations.

(** The world [W] with Go's [time.Time] for its instants and the atproto
    layout for their text. *)
Definition goTime (W : World) : World :=
  {| Time := time.Time;
     Directory := @Directory W;
     Client := @Client W;
     Format := time.Format;
     ParseQuery := @ParseQuery W;
     DatetimeNow := @DatetimeNow W;
     Marshal := @Marshal W;
     Search := @Search W;
     Decode := @Decode W |}.

(** ** Sample worlds, used to run the operations on concrete inputs *)

(** 2024-01-01T00:00:00Z, and the same day at 00:00:00.123456789Z and at
    02:00:00+02:00. *)
Definition newYear2024 : time.Time :=
  {| time.Year := 2024; time.Month := 1; time.Day := 1;
     time.Hour := 0; time.Minute := 0; time.Second := 0;
     time.Nanosecond := 0; time.ZoneOffset := 0 |}.

Definition newYear2024Nanos : time.Time :=
  {| time.Year := 2024; time.Month := 1; time.Day := 1;
     time.Hour := 0; time.Minute := 0; time.Second := 0;
     time.Nanosecond := 123456789; time.ZoneOffset := 0 |}.

Definition newYear2024Zoned : time.Time :=
  {| time.Year := 2024; time.Month := 1; time.Day := 1;
     time.Hour := 2; time.Minute := 0; time.Second := 0;
     time.Nanosecond := 0; time.ZoneOffset := 7200 |}.

(** A structured post request from the instant [from] on. *)
Definition postsFrom (from : time.Time) : PostSearchQuery time.Time :=
  {| post_Query := "cats"; post_Offset := 0; post_Size := 25;
     post_From := Some from; post_To := None;
     post_Actors := None; post_Tags := None; post_Langs := None |}.

Definition emptyResponse : EsSearchResponse :=
  {| Took := 1; TimedOut := false;
     Hits := {| Total_Value := 0; Total_Relation := "eq"; MaxScore := 0;
                Hits_Hits := Some [] |} |}.

(** A world whose instants are given by their formatted text, whose
    normalizer keeps the query string and extracts [parsed], and whose
    serializer, backend and decoder answer as told. *)
Definition stubWorld (parsed : slice (gmap string value))
  (marshalled : error + bytes) (answer : error + Response)
  (decoded : error + EsSearchResponse) : World :=
  {| Time := string;
     Directory := unit;
     Client := unit;
     Format := λ t, t;
     ParseQuery := λ _ q, (q, parsed);
     DatetimeNow := "2025-06-01T12:00:00.000Z";
     Marshal := λ _, marshalled;
     Search := λ _ _ _, answer;
     Decode := λ _, decoded |}.

(** A backend that answers 200 with a body that decodes. *)
Definition okWorld : World :=
  stubWorld None (inr []) (inr {| StatusCode := 200; Body := [] |})
    (inr emptyResponse).

(** A backend that rejects the request with 503. *)
Definition unavailableWorld : World :=
  stubWorld None (inr []) (inr {| StatusCode := 503; Body := [] |})
    (inr emptyResponse).

(** A backend that answers 101 (Switching Protocols) with a body that
    decodes. *)
Definition switchingWorld : World :=
  stubWorld None (inr []) (inr {| StatusCode := 101; Body := [] |})
    (inr emptyResponse).

(** A structured post request from 2024-01-01 on, by one actor, with
    empty tag and language sets. *)
Definition samplePosts : PostSearchQuery string :=
  {| post_Query := "cats"; post_Offset := 0; post_Size := 25;
     post_From := Some "2024-01-01T00:00:00Z"; post_To := None;
     post_Actors := Some ["did:plc:abc"]; post_Tags := Some [];
     post_Langs := Some [] |}.

(** A structured actor request within one followed account. *)
Definition sampleActors : ActorSearchQuery :=
  {| actor_Query := "ali"; actor_Following := Some ["did:plc:x"];
     actor_Offset := 0; actor_Size := 10; actor_Typeahead := true |}.

(** A serializer that fails. *)
Definition unserializableWorld : World :=
  stubWorld None (inl (errorString "json: unsupported value"))
    (inr {| StatusCode := 200; Body := [] |}) (inr emptyResponse).

(** A structured post request with no date range and no facet, its tag
    set present but empty. *)
Definition barePosts : PostSearchQuery string :=
  {| post_Query := "cats"; post_Offset := 50; post_Size := 25;
     post_From := None; post_To := None;
     post_Actors := None; post_Tags := Some []; post_Langs := None |}.

(** A structured actor request with no followed account. *)
Definition bareActors : ActorSearchQuery :=
  {| actor_Query := "ali"; actor_Following := None;
     actor_Offset := 0; actor_Size := 10; actor_Typeahead := false |}.

(** ** Vocabulary of the statements *)

(** The error of a rejected pagination request. *)
Definition InvalidParams : error :=
  errorString "disallowed size/offset parameters".

(** [r] called the guard on [(offset, size)] before anything else, and
    when the guard rejected it stopped there with the guard's error. *)
Definition guardedBy (offset size : Z) (r : Traced Result) : Prop :=
  (∃ rest, trace r = EvCheckParams offset size :: rest) ∧
  (∀ err, checkParams offset size = Some err →
     r = traced (None, Some err) [EvCheckParams offset size]).

(** Exactly one of the response and the error is non-nil. *)
Definition exactlyOne (r : Result) : Prop :=
  (is_Some r.1 ∧ r.2 = None) ∨ (r.1 = None ∧ is_Some r.2).

(** The one document [r] handed to the executor. *)
Definition compiles (r : Traced Result) (doc : value) : Prop :=
  compiled (trace r) = [doc].

(** [doc["query"]["bool"]], when the query of [doc] is a boolean query. *)
Definition boolQuery (doc : value) : option (gmap string value) :=
  match path ["query"; "bool"] doc with
  | Some (VMap b) => Some b
  | _ => None
  end.

(** [doc] is a boolean query with the entries [keys], whose [must] is the
    clause [scoring] and whose [filter] is the list [filters]. *)
Definition boolShape (doc : value) (scoring : gmap string value)
  (filters : slice (gmap string value)) (keys : gset string) : Prop :=
  ∃ b, boolQuery doc = Some b ∧ dom b = keys ∧
       b !! "must" = Some (VMap scoring) ∧
       b !! "filter" = Some (VMaps filters).

(** The query of [doc] is the clause [scoring] itself, with no boolean
    query around it. *)
Definition bareShape (doc : value) (scoring : gmap string value) : Prop :=
  field "query" doc = Some (VMap scoring) ∧ boolQuery doc = None.

(** [doc] is a boolean query down-weighted to 0.5, with the two optional
    clauses on avatar and banner, sorted on the authority score. *)
Definition relevanceShape (doc : value) : Prop :=
  ∃ b, boolQuery doc = Some b ∧
       b !! "boost" = Some (VFloat (1 # 2)) ∧
       b !! "should" = Some (VSlice (Some
         [ VMap {[ "term" := VMap {[ "has_avatar" := VBool true ]} ]};
           VMap {[ "term" := VMap {[ "has_banner" := VBool true ]} ]} ])) ∧
       b !! "minimum_should_match" = Some (VInt 0) ∧
       field "sort" doc =
         Some (VMap {[ "pagerank" := VMap
                         {[ "order" := VString "desc" ]} ]}).

(** [clause] is the prefix match of [q] over the three typeahead fields. *)
Definition prefixMatch (clause : value) (q : string) : Prop :=
  ∃ m, clause = VMap {[ "multi_match" := VMap m ]} ∧
       dom m = {[ "query"; "type"; "operator"; "fields" ]} ∧
       m !! "query" = Some (VString q) ∧
       m !! "type" = Some (VString "bool_prefix") ∧
       m !! "operator" = Some (VString "and") ∧
       m !! "fields" = Some (VSlice (Some
         [ VString "typeahead"; VString "typeahead._2gram";
           VString "typeahead._3gram" ])).

(** A facet set, taken as absent when it has no element. *)
Definition nilIfEmpty {A : Type} (s : slice A) : slice A :=
  if len s >? 0 then s else None.

(** The request [q] with its empty facet sets made absent. *)
Definition absentPostFacets {Time : Type} (q : PostSearchQuery Time)
  : PostSearchQuery Time :=
  {| post_Query := post_Query q; post_Offset := post_Offset q;
     post_Size := post_Size q; post_From := post_From q;
     post_To := post_To q;
     post_Actors := nilIfEmpty (post_Actors q);
     post_Tags := nilIfEmpty (post_Tags q);
     post_Langs := nilIfEmpty (post_Langs q) |}.

Definition absentActorFacets (q : ActorSearchQuery) : ActorSearchQuery :=
  {| actor_Query := actor_Query q;
     actor_Following := nilIfEmpty (actor_Following q);
     actor_Offset := actor_Offset q; actor_Size := actor_Size q;
     actor_Typeahead := actor_Typeahead q |}.

(** An accepted run: the calls [before] and then the executor on [doc]. *)
Definition runs `{W : World} (r : Traced Result) (before : list Event)
  (escli : Client) (index : string) (doc : value) : Prop :=
  r = traced (result (doSearch escli index doc))
             (before ++ trace (doSearch escli index doc)).

(** ** Vocabulary of the further properties *)

(** The bodies handed to the decoder during a run. *)
Definition decoded (t : list Event) : list bytes :=
  omap (λ e, match e with EvDecode b => Some b | _ => None end) t.

(** The query strings handed to the normalizer during a run. *)
Definition normalized (t : list Event) : list string :=
  omap (λ e, match e with EvParseQuery q => Some q | _ => None end) t.

(** The number of clock readings during a run. *)
Definition clockReadings (t : list Event) : nat :=
  length (omap (λ e, match e with EvDatetimeNow => Some () | _ => None end) t).

(** [r] is the guard on [(offset, size)] and, when the guard accepts, the
    calls [pre] followed by the executor on [doc]. *)
Definition guardedRun `{W : World} (r : Traced Result) (offset size : Z)
  (pre : list Event) (escli : Client) (index : string) (doc : value) : Prop :=
  guardedBy offset size r ∧
  (checkParams offset size = None →
   runs r (EvCheckParams offset size :: pre) escli index doc).

(** [doc] pages from [offset] for [size] hits, within the allowed window. *)
Definition pagedAs (doc : value) (offset size : Z) : Prop :=
  field "from" doc = Some (VInt offset) ∧
  field "size" doc = Some (VInt size) ∧
  0 ≤ offset ∧ 0 ≤ size ≤ 250 ∧ offset + size ≤ 10000.

(** The request that sends [doc] to [index], when [doc] serializes. *)
Definition requestFor `{W : World} (index : string) (doc : value)
  : option (string * bytes) :=
  match Marshal doc with
  | inr body => Some (index, body)
  | inl _ => None
  end.

(** [r] serializes at most one document, submits exactly the requests of
    the documents that serialize, and decodes no more bodies than it
    submitted requests. *)
Definition singleShot `{W : World} (index : string) (r : Traced Result)
  : Prop :=
  (length (compiled (trace r)) ≤ 1)%nat ∧
  submitted (trace r) = omap (requestFor index) (compiled (trace r)) ∧
  (length (decoded (trace r)) ≤ length (submitted (trace r)))%nat.

(** [body] is the body of a response that is not an error response, given
    to a request that the run [t] submitted to [index]. *)
Definition answeredOk `{W : World} (escli : Client) (index : string)
  (t : list Event) (body : bytes) : Prop :=
  ∃ req res, (index, req) ∈ submitted t ∧
             Search escli index req = inr res ∧
             IsError res = false ∧ Body res = body.

(** The step of the executor that an error message names. *)
Inductive Stage : Type := Serializing | Requesting | Rejected | Decoding.

(** The step named by the fixed text that starts the message [msg]. *)
Definition stageOf (msg : string) : option Stage :=
  if String.prefix "failed to serialize query: " msg then Some Serializing
  else if String.prefix "search query error: " msg then Some Requesting
  else if String.prefix "search query error, code=" msg then Some Rejected
  else if String.prefix "decoding search response: " msg then Some Decoding
  else None.

(** The step at which the executor fails on [query], if any. *)
Definition failingStage `{W : World} (escli : Client) (index : string)
  (query : value) : option Stage :=
  match Marshal query with
  | inl _ => Some Serializing
  | inr body =>
      match Search escli index body with
      | inl _ => Some Requesting
      | inr res =>
          if IsError res then Some Rejected
          else match Decode (Body res) with
               | inl _ => Some Decoding
               | inr _ => None
               end
      end
  end.

(** [clause] is the lenient simple-query-string match of [queryStr] over
    the field [everything]. *)
Definition simpleQuery (clause : value) (queryStr : string) : Prop :=
  ∃ m, clause = VMap {[ "simple_query_string" := VMap m ]} ∧
       dom m = {[ "query"; "fields"; "flags"; "default_operator";
                  "lenient"; "analyze_wildcard" ]} ∧
       m !! "query" = Some (VString queryStr) ∧
       m !! "fields" = Some (VSlice (Some [VString "everything"])) ∧
       m !! "flags" =
         Some (VString "AND|NOT|OR|PHRASE|PRECEDENCE|WHITESPACE") ∧
       m !! "default_operator" = Some (VString "and") ∧
       m !! "lenient" = Some (VBool true) ∧
       m !! "analyze_wildcard" = Some (VBool false).

(** [r] compiled a document that serialized, was answered with a response
    that is not an error response, and whose body decoded to [out]. *)
Definition succeedsWith `{W : World} (escli : Client) (index : string)
  (r : Traced Result) (out : EsSearchResponse) : Prop :=
  ∃ doc body res, compiles r doc ∧ Marshal doc = inr body ∧
                  Search escli index body = inr res ∧
                  IsError res = false ∧ Decode (Body res) = inr out.

(** ** Reading a bound back as an instant *)

(** The character of the decimal digit [d]. *)
Definition digit (d : Z) : ascii := pretty_N_char (Z.to_N d).

(** The [w] low decimal digits of [x], most significant first. *)
Fixpoint decimal (w : nat) (x : Z) : string :=
  match w with
  | O => ""
  | S w' => decimal w' (x / 10) +:+ String (digit (x mod 10)) ""
  end.

(** The value of a decimal digit character. *)
Definition digitValue (c : ascii) : option Z :=
  let n := Z.of_N (N_of_ascii c) - 48 in
  if (0 <=? n) && (n <=? 9) then Some n else None.

(** The number written by the digit characters [cs], after [acc]. *)
Fixpoint readNumber (cs : list ascii) (acc : Z) : option Z :=
  match cs with
  | [] => Some acc
  | c :: cs' => d ← digitValue c; readNumber cs' (10 * acc + d)
  end.

(** The milliseconds written by the end of an RFC 3339 text in UTC: [Z],
    or a dot, one to three digits and [Z]. *)
Definition readFraction (rest : string) : option Z :=
  match rest with
  | String z "" => if Ascii.eqb z "Z" then Some 0 else None
  | String p (String a (String z "")) =>
      if Ascii.eqb p "." && Ascii.eqb z "Z"
      then n ← readNumber [a] 0; Some (100 * n) else None
  | String p (String a (String b (String z ""))) =>
      if Ascii.eqb p "." && Ascii.eqb z "Z"
      then n ← readNumber [a; b] 0; Some (10 * n) else None
  | String p (String a (String b (String c (String z "")))) =>
      if Ascii.eqb p "." && Ascii.eqb z "Z"
      then readNumber [a; b; c] 0 else None
  | _ => None
  end.

(** The instant that an RFC 3339 text [YYYY-MM-DDTHH:MM:SS[.fff]Z]
    denotes, as a time in UTC. *)
Definition readDatetime (s : string) : option time.Time :=
  match s with
  | String y3 (String y2 (String y1 (String y0 (String c1
    (String m1 (String m0 (String c2
    (String d1 (String d0 (String c3
    (String h1 (String h0 (String c4
    (String i1 (String i0 (String c5
    (String s1 (String s0 rest)))))))))))))))))) =>
      if Ascii.eqb c1 "-" && Ascii.eqb c2 "-" && Ascii.eqb c3 "T"
         && Ascii.eqb c4 ":" && Ascii.eqb c5 ":"
      then
        year ← readNumber [y3; y2; y1; y0] 0;
        month ← readNumber [m1; m0] 0;
        day ← readNumber [d1; d0] 0;
        hour ← readNumber [h1; h0] 0;
        minute ← readNumber [i1; i0] 0;
        second ← readNumber [s1; s0] 0;
        millis ← readFraction rest;
        Some {| time.Year := year; time.Month := month; time.Day := day;
                time.Hour := hour; time.Minute := minute;
                time.Second := second;
                time.Nanosecond := millis * 1000000;
                time.ZoneOffset := 0 |}
      else None
  | _ => None
  end.

(** [t] with its nanoseconds cut to whole milliseconds. *)
Definition truncateMs (t : time.Time) : time.Time :=
  {| time.Year := time.Year t; time.Month := time.Month t;
     time.Day := time.Day t; time.Hour := time.Hour t;
     time.Minute := time.Minute t; time.Second := time.Second t;
     time.Nanosecond := time.Nanosecond t / 1000000 * 1000000;
     time.ZoneOffset := time.ZoneOffset t |}.

(** [t] is a time in UTC, with a four-digit year and its fields in their
    ranges. *)
Definition utc (t : time.Time) : Prop :=
  0 ≤ time.Year t ≤ 9999 ∧ 1 ≤ time.Month t ≤ 12 ∧ 1 ≤ time.Day t ≤ 31 ∧
  0 ≤ time.Hour t ≤ 23 ∧ 0 ≤ time.Minute t ≤ 59 ∧
  0 ≤ time.Second t ≤ 59 ∧ 0 ≤ time.Nanosecond t ≤ 999999999 ∧
  time.ZoneOffset t = 0.

(** The bound [range[key]] is the text of [t] in the atproto layout, and
    this text denotes [t] cut to whole milliseconds. *)
Definition boundIs (range : gmap string value) (key : string)
  (t : time.Time) : Prop :=
  range !! key = Some (VString (time.Format t)) ∧
  readDatetime (time.Format t) = Some (truncateMs t).

(** ** Failure paths and calls of the client *)

(** The executor's result on [doc] is an error when a step fails and a
    response when none does. *)
Definition outcomeOf `{W : World} (escli : Client) (index : string)
  (doc : value) (res : Result) : Prop :=
  match failingStage escli index doc with
  | Some _ => ∃ err, res = (None, Some err)
  | None => ∃ out, res = (Some out, None)
  end.

(** [r] returns exactly one of a response and an error: the guard's error
    when the guard rejects [(offset, size)], and otherwise the outcome of
    the executor on the document it compiled. *)
Definition failsOrSucceeds `{W : World} (escli : Client) (index : string)
  (offset size : Z) (r : Traced Result) : Prop :=
  exactlyOne (result r) ∧
  (∀ err, checkParams offset size = Some err →
     result r = (None, Some err)) ∧
  (checkParams offset size = None →
   ∃ doc, compiles r doc ∧ outcomeOf escli index doc (result r)).

(** [r] hands one document to the serializer when [accepted] and none
    otherwise, calls [escli.Search] once for each document that serializes,
    on [index] with the serialized body, and calls the decoder at most as
    often. *)
Definition callsSearchOnce `{W : World} (index : string) (accepted : bool)
  (r : Traced Result) : Prop :=
  length (compiled (trace r)) = (if accepted then 1 else 0)%nat ∧
  submitted (trace r) = omap (requestFor index) (compiled (trace r)) ∧
  (length (decoded (trace r)) ≤ length (submitted (trace r)))%nat.

(** * Properties *)

(** ** The pagination guard accepts exactly the allowed window *)

Lemma wrap_small (z : Z) :
  - 2 ^ 63 ≤ z < 2 ^ 63 → Go.wrap z = z.
Proof.
  intros Hz. unfold Go.wrap, Go.intSize.
  change (64 - 1) with 63.
  rewrite Z.mod_small; lia.
Qed.

Lemma checkParams_accepts (offset size : Z) :
  checkParams offset size = None ↔
  0 ≤ offset ≤ 10000 ∧ 0 ≤ size ≤ 250 ∧ offset + size ≤ 10000.
Proof.
  unfold checkParams, Go.add. split.
  - intros Hc.
    destruct (Z.gtb_spec size 250); [rewrite orb_true_r in Hc; done|].
    destruct (Z.gtb_spec offset 10000); [rewrite !orb_true_r in Hc; done|].
    destruct (Z.ltb_spec offset 0); [rewrite !orb_true_r in Hc; done|].
    destruct (Z.ltb_spec size 0); [rewrite !orb_true_r in Hc; done|].
    rewrite wrap_small in Hc by lia.
    destruct (Z.gtb_spec (offset + size) 10000); [done|lia].
  - intros (Ho & Hs & Hsum).
    rewrite wrap_small by lia.
    destruct (Z.gtb_spec (offset + size) 10000); [lia|].
    destruct (Z.gtb_spec size 250); [lia|].
    destruct (Z.gtb_spec offset 10000); [lia|].
    destruct (Z.ltb_spec offset 0); [lia|].
    destruct (Z.ltb_spec size 0); [lia|done].
Qed.

Lemma checkParams_error (offset size : Z) (err : error) :
  checkParams offset size = Some err → err = InvalidParams.
Proof.
  unfold checkParams. case_match; [|done]. by intros [= <-].
Qed.

(** C1. The guard accepts [(offset, size)] exactly when
    [0 ≤ offset ≤ 10000], [0 ≤ size ≤ 250] and [offset + size ≤ 10000]
    (the sum taken in the integers); every rejection returns the same
    invalid-parameters error; [(10000, 0)] and [(0, 250)] are accepted and
    [(9999, 2)], [(0, 251)] and [(-1, 0)] are rejected with that error. *)
Theorem checkParams_spec :
  (∀ offset size : Z,
     checkParams offset size = None ↔
     0 ≤ offset ≤ 10000 ∧ 0 ≤ size ≤ 250 ∧ offset + size ≤ 10000) ∧
  (∀ offset size : Z,
     checkParams offset size = None ∨
     checkParams offset size = Some InvalidParams) ∧
  checkParams 10000 0 = None ∧
  checkParams 0 250 = None ∧
  checkParams 9999 2 = Some InvalidParams ∧
  checkParams 0 251 = Some InvalidParams ∧
  checkParams (-1) 0 = Some InvalidParams.
Proof.
  split; [exact checkParams_accepts|].
  split; [|by repeat split].
  intros offset size.
  destruct (checkParams offset size) as [err|] eqn:Hc; [right|by left].
  by rewrite (checkParams_error _ _ _ Hc).
Qed.

(** ** Runs of the operations *)

Section Runs.
Context `{W : World}.
Implicit Types (dir : Directory) (escli : Client) (index q : string).
Implicit Types (offset size : Z) (pq : PostSearchQuery Time).
Implicit Types (aq : ActorSearchQuery) (query doc : value).

(** *** The executor *)

Lemma doSearch_trace escli index query :
  ∃ rest, trace (doSearch escli index query) = EvMarshal query :: rest ∧
          compiled rest = [] ∧ checked rest = [].
Proof.
  unfold doSearch, callMarshal, callSearch, callDecode. cbn.
  eexists; split; [reflexivity|].
  destruct (Marshal query) as [?|b]; cbn; [done|].
  destruct (Search escli index b) as [?|res]; cbn; [done|].
  destruct (IsError res); cbn; [done|].
  by destruct (Decode (Body res)).
Qed.

Lemma doSearch_compiled escli index query :
  compiled (trace (doSearch escli index query)) = [query].
Proof.
  destruct (doSearch_trace escli index query) as (rest & -> & Hc & _).
  unfold compiled in *. cbn. by rewrite Hc.
Qed.

Lemma runs_compiles (r : Traced Result) before escli index doc :
  compiled before = [] → runs r before escli index doc → compiles r doc.
Proof.
  intros Hb ->. unfold compiles, compiled. cbn.
  rewrite omap_app. fold (compiled before). rewrite Hb. cbn.
  apply doSearch_compiled.
Qed.

(** *** What each operation does once the guard has accepted *)

Ltac accepted H :=
  unfold runs, callCheckParams, callParseQuery, callDatetimeNow; cbn;
  rewrite H; cbn;
  repeat match goal with
         | |- context [ParseQuery ?d ?s] => destruct (ParseQuery d s); cbn
         end;
  reflexivity.

Lemma DoStructuredSearchPosts_runs dir escli index pq :
  checkParams (post_Offset pq) (post_Size pq) = None →
  runs (DoStructuredSearchPosts dir escli index pq)
    [EvCheckParams (post_Offset pq) (post_Size pq);
     EvParseQuery (post_Query pq); EvDatetimeNow]
    escli index
    (postsQuery (basicClause (ParseQuery dir (post_Query pq)).1)
       (structuredPostFilters DatetimeNow pq
          (ParseQuery dir (post_Query pq)).2)
       (post_Size pq) (post_Offset pq)).
Proof. intros H. unfold DoStructuredSearchPosts. accepted H. Qed.

Lemma DoSearchPosts_runs dir escli index q offset size :
  checkParams offset size = None →
  runs (DoSearchPosts dir escli index q offset size)
    [EvCheckParams offset size; EvParseQuery q; EvDatetimeNow]
    escli index
    (postsQuery (basicClause (ParseQuery dir q).1)
       (append (ParseQuery dir q).2
          {[ "range" := VMap {[ "created_at" := VMap
               {[ "lte" := VString DatetimeNow ]} ]} ]})
       size offset).
Proof. intros H. unfold DoSearchPosts. accepted H. Qed.

Lemma DoSearchProfiles_runs dir escli index q offset size :
  checkParams offset size = None →
  runs (DoSearchProfiles dir escli index q offset size)
    [EvCheckParams offset size; EvParseQuery q]
    escli index
    (profilesQuery (basicClause (ParseQuery dir q).1) (ParseQuery dir q).2
       size offset).
Proof. intros H. unfold DoSearchProfiles. accepted H. Qed.

Lemma DoStructuredSearchProfiles_runs dir escli index aq :
  checkParams (actor_Offset aq) (actor_Size aq) = None →
  runs (DoStructuredSearchProfiles dir escli index aq)
    [EvCheckParams (actor_Offset aq) (actor_Size aq);
     EvParseQuery (actor_Query aq)]
    escli index
    (profilesQuery (basicClause (ParseQuery dir (actor_Query aq)).1)
       (if len (actor_Following aq) >? 0
        then append (ParseQuery dir (actor_Query aq)).2
               (termsFilter "did" (actor_Following aq))
        else (ParseQuery dir (actor_Query aq)).2)
       (actor_Size aq) (actor_Offset aq)).
Proof. intros H. unfold DoStructuredSearchProfiles. accepted H. Qed.

Lemma DoSearchProfilesTypeahead_runs escli index q size :
  checkParams 0 size = None →
  runs (DoSearchProfilesTypeahead escli index q size)
    [EvCheckParams 0 size]
    escli index
    (VMap {[ "query" := VMap (multiMatch q);
             "size" := VInt size;
             "sort" := VMap pagerankSort ]}).
Proof. intros H. unfold DoSearchProfilesTypeahead. accepted H. Qed.

Lemma DoStructuredSearchProfilesTypeahead_runs escli index aq :
  checkParams (actor_Offset aq) (actor_Size aq) = None →
  runs (DoStructuredSearchProfilesTypeahead escli index aq)
    [EvCheckParams (actor_Offset aq) (actor_Size aq)]
    escli index
    (VMap {[ "query" := VMap {[ "bool" := VMap
               {[ "must" := VMap (multiMatch (actor_Query aq));
                  "filter" := VMaps
                    (if len (actor_Following aq) >? 0
                     then append None (termsFilter "did" (actor_Following aq))
                     else None) ]} ]};
             "size" := VInt (actor_Size aq);
             "from" := VInt (actor_Offset aq);
             "sort" := VMap pagerankSort ]}).
Proof. intros H. unfold DoStructuredSearchProfilesTypeahead. accepted H. Qed.

(** *** The guard comes first *)

Ltac guarded :=
  unfold guardedBy, callCheckParams; cbn;
  split; [eauto | by intros err ->].

Lemma DoStructuredSearchPosts_guarded dir escli index pq :
  guardedBy (post_Offset pq) (post_Size pq)
    (DoStructuredSearchPosts dir escli index pq).
Proof. unfold DoStructuredSearchPosts. guarded. Qed.

Lemma DoSearchPosts_guarded dir escli index q offset size :
  guardedBy offset size (DoSearchPosts dir escli index q offset size).
Proof. unfold DoSearchPosts. guarded. Qed.

Lemma DoSearchProfiles_guarded dir escli index q offset size :
  guardedBy offset size (DoSearchProfiles dir escli index q offset size).
Proof. unfold DoSearchProfiles. guarded. Qed.

Lemma DoStructuredSearchProfiles_guarded dir escli index aq :
  guardedBy (actor_Offset aq) (actor_Size aq)
    (DoStructuredSearchProfiles dir escli index aq).
Proof. unfold DoStructuredSearchProfiles. guarded. Qed.

Lemma DoSearchProfilesTypeahead_guarded escli index q size :
  guardedBy 0 size (DoSearchProfilesTypeahead escli index q size).
Proof. unfold DoSearchProfilesTypeahead. guarded. Qed.

Lemma DoStructuredSearchProfilesTypeahead_guarded escli index aq :
  guardedBy (actor_Offset aq) (actor_Size aq)
    (DoStructuredSearchProfilesTypeahead escli index aq).
Proof. unfold DoStructuredSearchProfilesTypeahead. guarded. Qed.

End Runs.

(** ** The guard and the five shapes *)

Section Claims.
Context `{W : World}.
Implicit Types (dir : Directory) (escli : Client) (index q : string).
Implicit Types (offset size : Z) (pq : PostSearchQuery Time).
Implicit Types (aq : ActorSearchQuery) (query doc : value).

Lemma checkParams_zero_offset offset size :
  checkParams offset size = None → checkParams 0 size = None.
Proof. rewrite !checkParams_accepts. lia. Qed.

(** C2 (as amended). Each of the six operations that take pagination
    parameters calls the guard before anything else (before the normalizer,
    the clock, the serializer and the backend), on the request's offset and
    size, the plain typeahead on offset 0; when the guard rejects, the
    operation returns the guard's error with a nil response and its trace
    holds the guard call only, so no request is submitted. The passthrough
    operation takes no pagination parameters and never calls the guard: its
    first call is the serializer. *)
Theorem guard_runs_first dir escli index q offset size pq aq :
  guardedBy (post_Offset pq) (post_Size pq)
    (DoStructuredSearchPosts dir escli index pq) ∧
  guardedBy offset size (DoSearchPosts dir escli index q offset size) ∧
  guardedBy offset size (DoSearchProfiles dir escli index q offset size) ∧
  guardedBy (actor_Offset aq) (actor_Size aq)
    (DoStructuredSearchProfiles dir escli index aq) ∧
  guardedBy 0 size (DoSearchProfilesTypeahead escli index q size) ∧
  guardedBy (actor_Offset aq) (actor_Size aq)
    (DoStructuredSearchProfilesTypeahead escli index aq) ∧
  checked (trace (DoSearchGeneric escli index q)) = [] ∧
  (∃ doc rest, trace (DoSearchGeneric escli index q) = EvMarshal doc :: rest).
Proof.
  split; [apply DoStructuredSearchPosts_guarded|].
  split; [apply DoSearchPosts_guarded|].
  split; [apply DoSearchProfiles_guarded|].
  split; [apply DoStructuredSearchProfiles_guarded|].
  split; [apply DoSearchProfilesTypeahead_guarded|].
  split; [apply DoStructuredSearchProfilesTypeahead_guarded|].
  unfold DoSearchGeneric.
  match goal with
  | |- context [doSearch ?c ?i ?d] =>
      destruct (doSearch_trace c i d) as (rest & -> & _ & Hg)
  end.
  split; [exact Hg | eauto].
Qed.

Ltac shape H :=
  eexists; split; [eapply runs_compiles; [|apply H]; reflexivity|];
  try (eexists; repeat split; reflexivity).

(** C3 (as amended). In the five operations that wrap their query in a
    boolean query (posts and profiles, plain and structured, and the
    structured typeahead) the scoring clause is the single [must] entry and
    the filter list is the [filter] entry; [should], with
    [minimum_should_match] and [boost], is an entry of the two profile
    operations only. The plain typeahead and the passthrough build no
    boolean query: their scoring clause is the document's [query] itself,
    and there is no [must], [filter] or [should]. *)
Theorem shapes_of_the_documents dir escli index q offset size pq aq :
  checkParams offset size = None →
  checkParams (post_Offset pq) (post_Size pq) = None →
  checkParams (actor_Offset aq) (actor_Size aq) = None →
  (∃ doc, compiles (DoSearchPosts dir escli index q offset size) doc ∧
     boolShape doc (basicClause (ParseQuery dir q).1)
       (append (ParseQuery dir q).2
          {[ "range" := VMap {[ "created_at" := VMap
               {[ "lte" := VString DatetimeNow ]} ]} ]})
       {[ "must"; "filter" ]}) ∧
  (∃ doc, compiles (DoStructuredSearchPosts dir escli index pq) doc ∧
     boolShape doc (basicClause (ParseQuery dir (post_Query pq)).1)
       (structuredPostFilters DatetimeNow pq
          (ParseQuery dir (post_Query pq)).2)
       {[ "must"; "filter" ]}) ∧
  (∃ doc, compiles (DoSearchProfiles dir escli index q offset size) doc ∧
     boolShape doc (basicClause (ParseQuery dir q).1) (ParseQuery dir q).2
       {[ "must"; "should"; "minimum_should_match"; "filter"; "boost" ]}) ∧
  (∃ doc, compiles (DoStructuredSearchProfiles dir escli index aq) doc ∧
     boolShape doc (basicClause (ParseQuery dir (actor_Query aq)).1)
       (if len (actor_Following aq) >? 0
        then append (ParseQuery dir (actor_Query aq)).2
               (termsFilter "did" (actor_Following aq))
        else (ParseQuery dir (actor_Query aq)).2)
       {[ "must"; "should"; "minimum_should_match"; "filter"; "boost" ]}) ∧
  (∃ doc, compiles (DoStructuredSearchProfilesTypeahead escli index aq) doc ∧
     boolShape doc (multiMatch (actor_Query aq))
       (if len (actor_Following aq) >? 0
        then append None (termsFilter "did" (actor_Following aq))
        else None)
       {[ "must"; "filter" ]}) ∧
  (∃ doc, compiles (DoSearchProfilesTypeahead escli index q size) doc ∧
     bareShape doc (multiMatch q)) ∧
  (∃ doc clause, compiles (DoSearchGeneric escli index q) doc ∧
     bareShape doc {[ "query_string" := clause ]}).
Proof.
  intros H Hp Ha.
  pose proof (checkParams_zero_offset _ _ H) as H0.
  split; [shape (DoSearchPosts_runs dir escli index q _ _ H)|].
  split; [shape (DoStructuredSearchPosts_runs dir escli index _ Hp)|].
  split; [shape (DoSearchProfiles_runs dir escli index q _ _ H)|].
  split; [shape (DoStructuredSearchProfiles_runs dir escli index _ Ha)|].
  split; [shape (DoStructuredSearchProfilesTypeahead_runs escli index _ Ha)|].
  split; [shape (DoSearchProfilesTypeahead_runs escli index q _ H0);
          by split|].
  do 2 eexists. split; [apply doSearch_compiled|]. by split.
Qed.

(** *** Posts by recency *)

Lemma createdAtRange_bounds (now : string) pq :
  createdAtRange now pq !! "lte" =
    Some (VString (from_option Format now (post_To pq))) ∧
  createdAtRange now pq !! "gte" =
    (λ t, VString (Format t)) <$> post_From pq ∧
  dom (createdAtRange now pq) =
    match post_From pq with
    | Some _ => {[ "gte"; "lte" ]}
    | None => {[ "lte" ]}
    end.
Proof.
  unfold createdAtRange.
  destruct (post_From pq), (post_To pq); repeat split; reflexivity.
Qed.

Lemma structuredPostFilters_order (now : string) pq
  (filters : slice (gmap string value)) :
  structuredPostFilters now pq filters =
  Some (elems filters
        ++ [ {[ "range" := VMap
                  {[ "created_at" := VMap (createdAtRange now pq) ]} ]} ]
        ++ (if len (post_Actors pq) >? 0
            then [termsFilter "did" (post_Actors pq)] else [])
        ++ (if len (post_Tags pq) >? 0
            then [termsFilter "tag" (post_Tags pq)] else [])
        ++ (if len (post_Langs pq) >? 0
            then [termsFilter "lang" (post_Langs pq)] else [])).
Proof.
  unfold structuredPostFilters, append.
  destruct (len (post_Actors pq) >? 0), (len (post_Tags pq) >? 0),
    (len (post_Langs pq) >? 0); cbn [elems];
    by rewrite <- ?app_assoc.
Qed.

(** The range clause, whatever the text that [Format] gives to an instant:
    the filter list of a structured post search holds, right after the
    normalizer's filters, a [range] clause on [created_at] whose upper bound
    [lte] is always present: it is the clock reading of the compilation
    when the request has no [to], and the request's [to], formatted, when it
    has one; the lower bound [gte] is present exactly when the request has
    a [from], and is that [from], formatted; the clause has no other bound.
    The plain post search has the upper bound at the clock reading and no
    lower bound. *)
Theorem created_at_range dir escli index q offset size pq :
  checkParams (post_Offset pq) (post_Size pq) = None →
  checkParams offset size = None →
  (∃ doc range rest,
     compiles (DoStructuredSearchPosts dir escli index pq) doc ∧
     path ["query"; "bool"; "filter"] doc =
       Some (VMaps (Some (elems (ParseQuery dir (post_Query pq)).2
         ++ {[ "range" := VMap {[ "created_at" := VMap range ]} ]}
         :: rest))) ∧
     range !! "lte" =
       Some (VString (from_option Format DatetimeNow (post_To pq))) ∧
     range !! "gte" = (λ t, VString (Format t)) <$> post_From pq ∧
     dom range = match post_From pq with
                 | Some _ => {[ "gte"; "lte" ]}
                 | None => {[ "lte" ]}
                 end) ∧
  (∃ doc,
     compiles (DoSearchPosts dir escli index q offset size) doc ∧
     path ["query"; "bool"; "filter"] doc =
       Some (VMaps (Some (elems (ParseQuery dir q).2
         ++ [ {[ "range" := VMap {[ "created_at" := VMap
                  {[ "lte" := VString DatetimeNow ]} ]} ]} ])))).
Proof.
  intros Hp H. split.
  - eexists _, (createdAtRange DatetimeNow pq), _.
    split; [eapply runs_compiles;
            [|apply (DoStructuredSearchPosts_runs dir escli index _ Hp)];
            reflexivity|].
    split; [|apply createdAtRange_bounds].
    cbn. by rewrite structuredPostFilters_order.
  - eexists.
    split; [eapply runs_compiles;
            [|apply (DoSearchPosts_runs dir escli index q _ _ H)];
            reflexivity|].
    reflexivity.
Qed.

(** C5. The filter list of a structured post search is, in this order:
    the normalizer's filters, the [created_at] range clause, a terms clause
    on [did] when the actor set has an element, a terms clause on [tag]
    when the tag set has an element, a terms clause on [lang] when the
    language set has an element, and nothing else. The document sorts on
    [created_at] alone, descending, and its boolean query has no
    [should]. *)
Theorem structured_post_filters dir escli index pq :
  checkParams (post_Offset pq) (post_Size pq) = None →
  ∃ doc range,
    compiles (DoStructuredSearchPosts dir escli index pq) doc ∧
    is_Some (range !! "lte") ∧
    path ["query"; "bool"; "filter"] doc =
      Some (VMaps (Some (elems (ParseQuery dir (post_Query pq)).2
        ++ [ {[ "range" := VMap {[ "created_at" := VMap range ]} ]} ]
        ++ (if len (post_Actors pq) >? 0
            then [ {[ "terms" := VMap
                        {[ "did" := VStrings (post_Actors pq) ]} ]} ]
            else [])
        ++ (if len (post_Tags pq) >? 0
            then [ {[ "terms" := VMap
                        {[ "tag" := VStrings (post_Tags pq) ]} ]} ]
            else [])
        ++ (if len (post_Langs pq) >? 0
            then [ {[ "terms" := VMap
                        {[ "lang" := VStrings (post_Langs pq) ]} ]} ]
            else [])))) ∧
    field "sort" doc =
      Some (VMap {[ "created_at" := VMap
                      {[ "order" := VString "desc" ]} ]}) ∧
    path ["query"; "bool"; "should"] doc = None.
Proof.
  intros Hp. eexists _, (createdAtRange DatetimeNow pq).
  split; [eapply runs_compiles;
          [|apply (DoStructuredSearchPosts_runs dir escli index _ Hp)];
          reflexivity|].
  split; [rewrite (proj1 (createdAtRange_bounds _ _)); eauto|].
  split; [|by split].
  cbn. by rewrite structuredPostFilters_order.
Qed.

(** *** Profiles by relevance *)

(** C6. Whatever the free text, the normalizer's filters and the
    [following] set, the document of a profile search, plain or structured,
    has a boolean query with [boost] 0.5 (the rational 1/2), a [should] list
    of exactly the two clauses on [has_avatar] and [has_banner],
    [minimum_should_match] 0, and sorts on [pagerank] alone, descending. *)
Theorem profile_relevance dir escli index q offset size aq :
  checkParams offset size = None →
  checkParams (actor_Offset aq) (actor_Size aq) = None →
  (∃ doc, compiles (DoSearchProfiles dir escli index q offset size) doc ∧
          relevanceShape doc) ∧
  (∃ doc, compiles (DoStructuredSearchProfiles dir escli index aq) doc ∧
          relevanceShape doc).
Proof.
  intros H Ha. split.
  - shape (DoSearchProfiles_runs dir escli index q _ _ H).
  - shape (DoStructuredSearchProfiles_runs dir escli index _ Ha).
Qed.

(** *** Typeahead *)

(** C7. The scoring clause of a typeahead search is a [multi_match] of
    type [bool_prefix] with operator [and] over exactly the fields
    [typeahead], [typeahead._2gram] and [typeahead._3gram]; it is the
    [query] of the plain variant and the [must] of the structured one. The
    structured variant's filter list is one terms clause on [did] over the
    [following] set when that set has an element, and the nil list when it
    is empty or absent. *)
Theorem typeahead_clause escli index q size aq :
  checkParams 0 size = None →
  checkParams (actor_Offset aq) (actor_Size aq) = None →
  (∃ doc clause,
     compiles (DoSearchProfilesTypeahead escli index q size) doc ∧
     field "query" doc = Some clause ∧ prefixMatch clause q) ∧
  (∃ doc b clause,
     compiles (DoStructuredSearchProfilesTypeahead escli index aq) doc ∧
     boolQuery doc = Some b ∧
     b !! "must" = Some clause ∧ prefixMatch clause (actor_Query aq) ∧
     b !! "filter" = Some (VMaps
       (if len (actor_Following aq) >? 0
        then Some [ {[ "terms" := VMap
                         {[ "did" := VStrings (actor_Following aq) ]} ]} ]
        else None))).
Proof.
  intros H0 Ha. split.
  - do 2 eexists.
    split; [eapply runs_compiles;
            [|apply (DoSearchProfilesTypeahead_runs escli index q _ H0)];
            reflexivity|].
    split; [reflexivity|]. eexists. repeat split; reflexivity.
  - do 3 eexists.
    split; [eapply runs_compiles;
            [|apply (DoStructuredSearchProfilesTypeahead_runs
                       escli index _ Ha)];
            reflexivity|].
    split; [reflexivity|]. split; [reflexivity|].
    split; [eexists; repeat split; reflexivity|].
    cbn. by destruct (len (actor_Following aq) >? 0).
Qed.

(** *** Empty and absent facet sets *)

Lemma nilIfEmpty_len {A : Type} (s : slice A) :
  (len (nilIfEmpty s) >? 0) = (len s >? 0).
Proof. unfold nilIfEmpty. by destruct (len s >? 0) eqn:E. Qed.

Lemma nilIfEmpty_nonempty {A : Type} (s : slice A) :
  (len s >? 0) = true → nilIfEmpty s = s.
Proof. unfold nilIfEmpty. by intros ->. Qed.

Lemma structuredPostFilters_absent (now : string) pq
  (filters : slice (gmap string value)) :
  structuredPostFilters now (absentPostFacets pq) filters =
  structuredPostFilters now pq filters.
Proof.
  unfold structuredPostFilters, createdAtRange. cbn.
  rewrite !nilIfEmpty_len.
  destruct (len (post_Actors pq) >? 0) eqn:Ea;
    destruct (len (post_Tags pq) >? 0) eqn:Et;
    destruct (len (post_Langs pq) >? 0) eqn:El;
    rewrite ?(nilIfEmpty_nonempty _ Ea), ?(nilIfEmpty_nonempty _ Et),
      ?(nilIfEmpty_nonempty _ El); reflexivity.
Qed.

Lemma guardedBy_rejected (r r' : Traced Result) offset size (err : error) :
  checkParams offset size = Some err →
  guardedBy offset size r → guardedBy offset size r' → r = r'.
Proof. intros H [_ G] [_ G']. by rewrite (G _ H), (G' _ H). Qed.

Lemma DoStructuredSearchPosts_absent dir escli index pq :
  DoStructuredSearchPosts dir escli index (absentPostFacets pq) =
  DoStructuredSearchPosts dir escli index pq.
Proof.
  destruct (checkParams (post_Offset pq) (post_Size pq)) as [err|] eqn:Hp.
  { eapply guardedBy_rejected; [exact Hp| |];
      [apply (DoStructuredSearchPosts_guarded _ _ _ (absentPostFacets pq))
      |apply DoStructuredSearchPosts_guarded]. }
  pose proof (DoStructuredSearchPosts_runs dir escli index _ Hp) as R1.
  pose proof (DoStructuredSearchPosts_runs dir escli index
                (absentPostFacets pq) Hp) as R2.
  unfold runs in *. rewrite R1, R2. cbn.
  by rewrite structuredPostFilters_absent.
Qed.

Lemma DoStructuredSearchProfiles_absent dir escli index aq :
  DoStructuredSearchProfiles dir escli index (absentActorFacets aq) =
  DoStructuredSearchProfiles dir escli index aq.
Proof.
  destruct (checkParams (actor_Offset aq) (actor_Size aq)) as [err|] eqn:Ha.
  { eapply guardedBy_rejected; [exact Ha| |];
      [apply (DoStructuredSearchProfiles_guarded _ _ _ (absentActorFacets aq))
      |apply DoStructuredSearchProfiles_guarded]. }
  pose proof (DoStructuredSearchProfiles_runs dir escli index _ Ha) as R1.
  pose proof (DoStructuredSearchProfiles_runs dir escli index
                (absentActorFacets aq) Ha) as R2.
  unfold runs in *. rewrite R1, R2. cbn.
  rewrite !nilIfEmpty_len.
  destruct (len (actor_Following aq) >? 0) eqn:Ef;
    rewrite ?(nilIfEmpty_nonempty _ Ef); done.
Qed.

Lemma DoStructuredSearchProfilesTypeahead_absent escli index aq :
  DoStructuredSearchProfilesTypeahead escli index (absentActorFacets aq) =
  DoStructuredSearchProfilesTypeahead escli index aq.
Proof.
  destruct (checkParams (actor_Offset aq) (actor_Size aq)) as [err|] eqn:Ha.
  { eapply guardedBy_rejected; [exact Ha| |];
      [apply (DoStructuredSearchProfilesTypeahead_guarded _ _
                (absentActorFacets aq))
      |apply DoStructuredSearchProfilesTypeahead_guarded]. }
  pose proof (DoStructuredSearchProfilesTypeahead_runs escli index _ Ha)
    as R1.
  pose proof (DoStructuredSearchProfilesTypeahead_runs escli index
                (absentActorFacets aq) Ha) as R2.
  unfold runs in *. rewrite R1, R2. cbn.
  rewrite !nilIfEmpty_len.
  destruct (len (actor_Following aq) >? 0) eqn:Ef;
    rewrite ?(nilIfEmpty_nonempty _ Ef); done.
Qed.

(** C9. Two requests that differ only in facet sets being empty in one
    and absent in the other are treated alike by the three structured
    operations: the same calls, the same document, the same result. When
    the guard accepts and every facet set has length zero, no terms clause
    is added: the filter list of the post search is the normalizer's
    filters and the range clause, that of the profile search is the
    normalizer's list, that of the typeahead is the nil list. *)
Theorem empty_facets_are_absent dir escli index pq aq :
  (∀ pq', absentPostFacets pq' = absentPostFacets pq →
     DoStructuredSearchPosts dir escli index pq' =
     DoStructuredSearchPosts dir escli index pq) ∧
  (∀ aq', absentActorFacets aq' = absentActorFacets aq →
     DoStructuredSearchProfiles dir escli index aq' =
     DoStructuredSearchProfiles dir escli index aq ∧
     DoStructuredSearchProfilesTypeahead escli index aq' =
     DoStructuredSearchProfilesTypeahead escli index aq) ∧
  (checkParams (post_Offset pq) (post_Size pq) = None →
   len (post_Actors pq) = 0 → len (post_Tags pq) = 0 →
   len (post_Langs pq) = 0 →
   ∃ doc range,
     compiles (DoStructuredSearchPosts dir escli index pq) doc ∧
     path ["query"; "bool"; "filter"] doc =
       Some (VMaps (Some (elems (ParseQuery dir (post_Query pq)).2
         ++ [ {[ "range" := VMap {[ "created_at" := VMap range ]} ]} ])))) ∧
  (checkParams (actor_Offset aq) (actor_Size aq) = None →
   len (actor_Following aq) = 0 →
   (∃ doc, compiles (DoStructuredSearchProfiles dir escli index aq) doc ∧
      path ["query"; "bool"; "filter"] doc =
        Some (VMaps (ParseQuery dir (actor_Query aq)).2)) ∧
   (∃ doc,
      compiles (DoStructuredSearchProfilesTypeahead escli index aq) doc ∧
      path ["query"; "bool"; "filter"] doc = Some (VMaps None))).
Proof.
  split; [|split; [|split]].
  - intros pq' E.
    rewrite <- (DoStructuredSearchPosts_absent _ _ _ pq'), E.
    apply DoStructuredSearchPosts_absent.
  - intros aq' E. split.
    + rewrite <- (DoStructuredSearchProfiles_absent _ _ _ aq'), E.
      apply DoStructuredSearchProfiles_absent.
    + rewrite <- (DoStructuredSearchProfilesTypeahead_absent _ _ aq'), E.
      apply DoStructuredSearchProfilesTypeahead_absent.
  - intros Hp Hact Htag Hlang.
    eexists _, (createdAtRange DatetimeNow pq).
    split; [eapply runs_compiles;
            [|apply (DoStructuredSearchPosts_runs dir escli index _ Hp)];
            reflexivity|].
    cbn. rewrite structuredPostFilters_order, Hact, Htag, Hlang. done.
  - intros Ha Hf. split; eexists.
    + split; [eapply runs_compiles;
              [|apply (DoStructuredSearchProfiles_runs dir escli index _ Ha)];
              reflexivity|].
      cbn. by rewrite Hf.
    + split; [eapply runs_compiles;
              [|apply (DoStructuredSearchProfilesTypeahead_runs
                         escli index _ Ha)];
              reflexivity|].
      cbn. by rewrite Hf.
Qed.

(** *** The executor's results *)

Lemma doSearch_result escli index query :
  result (doSearch escli index query) =
  match Marshal query with
  | inl err => (None, Some (Errorf_w "failed to serialize query: " err))
  | inr body =>
      match Search escli index body with
      | inl err => (None, Some (Errorf_w "search query error: " err))
      | inr res =>
          if StatusCode res >? 299
          then (None, Some (Errorf_d "search query error, code="
                                     (StatusCode res)))
          else match Decode (Body res) with
               | inl err =>
                   (None, Some (Errorf_w "decoding search response: " err))
               | inr out => (Some out, None)
               end
      end
  end.
Proof.
  unfold doSearch, callMarshal, callSearch, callDecode, IsError. cbn.
  destruct (Marshal query) as [?|body]; cbn; [done|].
  destruct (Search escli index body) as [?|res]; cbn; [done|].
  destruct (StatusCode res >? 299); cbn; [done|].
  by destruct (Decode (Body res)).
Qed.

Lemma Errorf_d_inj (prefix : string) (n m : Z) :
  Errorf_d prefix n = Errorf_d prefix m → n = m.
Proof.
  unfold Errorf_d. intros [= H].
  apply (inj (String.app prefix)) in H. by apply (inj pretty) in H.
Qed.

(** C8 (as amended). Once the document is serialized, the executor maps
    the outcomes as follows. A failure of the request itself gives an error
    that wraps the cause. A response whose status code is above 299 gives
    the error that prints that code, and different codes give different
    errors. Every other response (status code 299 or below, which is what
    the client library's [IsError] lets through: the 2xx codes, and also
    any code below 200) is decoded: a body that fails to decode gives an
    error that wraps the decoder's cause, and a body that decodes gives the
    decoded response and no error. *)
Theorem executor_failure_mapping escli index query (body : bytes) :
  Marshal query = inr body →
  (∀ cause, Search escli index body = inl cause →
     ∃ err, result (doSearch escli index query) = (None, Some err) ∧
            Unwrap err = Some cause ∧
            Error err = "search query error: " +:+ Error cause) ∧
  (∀ res, Search escli index body = inr res → 299 < StatusCode res →
     result (doSearch escli index query) =
       (None, Some (errorString
          ("search query error, code=" +:+ pretty (StatusCode res))))) ∧
  (∀ res cause, Search escli index body = inr res → StatusCode res ≤ 299 →
     Decode (Body res) = inl cause →
     ∃ err, result (doSearch escli index query) = (None, Some err) ∧
            Unwrap err = Some cause ∧
            Error err = "decoding search response: " +:+ Error cause) ∧
  (∀ res out, Search escli index body = inr res → StatusCode res ≤ 299 →
     Decode (Body res) = inr out →
     result (doSearch escli index query) = (Some out, None)) ∧
  (∀ c1 c2 : Z,
     Errorf_d "search query error, code=" c1 =
     Errorf_d "search query error, code=" c2 → c1 = c2).
Proof.
  intros Hm. rewrite doSearch_result, Hm.
  split; [|split; [|split; [|split]]].
  - intros cause ->. eexists. by repeat split.
  - intros res -> Hc.
    by destruct (Z.gtb_spec (StatusCode res) 299); [|lia].
  - intros res cause -> Hc ->.
    destruct (Z.gtb_spec (StatusCode res) 299); [lia|].
    eexists. by repeat split.
  - intros res out -> Hc ->.
    by destruct (Z.gtb_spec (StatusCode res) 299); [lia|].
  - apply Errorf_d_inj.
Qed.

(** *** One of a response and an error *)

Lemma doSearch_exactlyOne escli index query :
  exactlyOne (result (doSearch escli index query)).
Proof.
  rewrite doSearch_result. unfold exactlyOne.
  destruct (Marshal query) as [?|body]; [right; eauto|].
  destruct (Search escli index body) as [?|res]; [right; eauto|].
  destruct (StatusCode res >? 299); [right; eauto|].
  destruct (Decode (Body res)); [right|left]; eauto.
Qed.

Lemma guarded_exactlyOne (r : Traced Result) offset size before escli index
  doc :
  guardedBy offset size r →
  (checkParams offset size = None → runs r before escli index doc) →
  exactlyOne (result r).
Proof.
  intros [_ G] R.
  destruct (checkParams offset size) as [err|] eqn:H.
  - rewrite (G _ eq_refl). right. cbn. eauto.
  - rewrite (R eq_refl). apply doSearch_exactlyOne.
Qed.

Lemma doSearch_outcome escli index query :
  outcomeOf escli index query (result (doSearch escli index query)).
Proof.
  unfold outcomeOf, failingStage, IsError. rewrite doSearch_result.
  destruct (Marshal query) as [?|body]; [eauto|].
  destruct (Search escli index body) as [?|res]; [eauto|].
  destruct (StatusCode res >? 299); [eauto|].
  destruct (Decode (Body res)); eauto.
Qed.

Lemma guarded_failsOrSucceeds (r : Traced Result) offset size before escli
  index doc :
  guardedBy offset size r →
  (checkParams offset size = None → runs r before escli index doc) →
  compiled before = [] →
  failsOrSucceeds escli index offset size r.
Proof.
  intros G R Hb. split; [by eapply guarded_exactlyOne|]. split.
  - intros err H. destruct G as [_ G]. by rewrite (G _ H).
  - intros H. exists doc. split; [by eapply runs_compiles; eauto|].
    rewrite (R H). apply doSearch_outcome.
Qed.

(** C10. The executor and each of the seven operations return exactly one
    of a response and an error: either the response is non-nil and the
    error nil, or the response is nil and the error non-nil. Every failure
    path gives a nil response and a non-nil error: an operation whose
    pagination the guard rejects returns the guard's error, and an
    operation whose document fails at the serializer, at the request, as
    an error response or at the decoder returns an error; when no step
    fails it returns a response and a nil error. The executor returns a
    response exactly when the serializer, the request and the decoder all
    succeed and the response is not an error response. *)
Theorem one_of_response_and_error dir escli index q offset size pq aq query :
  exactlyOne (result (doSearch escli index query)) ∧
  (is_Some (result (doSearch escli index query)).1 ↔
   ∃ body res out, Marshal query = inr body ∧
     Search escli index body = inr res ∧ IsError res = false ∧
     Decode (Body res) = inr out) ∧
  outcomeOf escli index query (result (doSearch escli index query)) ∧
  failsOrSucceeds escli index (post_Offset pq) (post_Size pq)
    (DoStructuredSearchPosts dir escli index pq) ∧
  failsOrSucceeds escli index offset size
    (DoSearchPosts dir escli index q offset size) ∧
  failsOrSucceeds escli index offset size
    (DoSearchProfiles dir escli index q offset size) ∧
  failsOrSucceeds escli index (actor_Offset aq) (actor_Size aq)
    (DoStructuredSearchProfiles dir escli index aq) ∧
  failsOrSucceeds escli index 0 size
    (DoSearchProfilesTypeahead escli index q size) ∧
  failsOrSucceeds escli index (actor_Offset aq) (actor_Size aq)
    (DoStructuredSearchProfilesTypeahead escli index aq) ∧
  exactlyOne (result (DoSearchGeneric escli index q)) ∧
  (∃ doc, compiles (DoSearchGeneric escli index q) doc ∧
     outcomeOf escli index doc (result (DoSearchGeneric escli index q))).
Proof.
  split; [apply doSearch_exactlyOne|].
  split.
  { rewrite doSearch_result. unfold IsError. split.
    - destruct (Marshal query) as [?|body]; [by intros [? [=]]|].
      destruct (Search escli index body) as [?|res] eqn:Hs;
        [by intros [? [=]]|].
      destruct (StatusCode res >? 299) eqn:Hc; [by intros [? [=]]|].
      destruct (Decode (Body res)) as [?|out] eqn:Hd; [by intros [? [=]]|].
      intros _. exists body, res, out. by rewrite Hs.
    - intros (body & res & out & -> & -> & -> & ->). by eexists. }
  split; [apply doSearch_outcome|].
  split; [eapply guarded_failsOrSucceeds;
          [apply DoStructuredSearchPosts_guarded
          |apply DoStructuredSearchPosts_runs|done]|].
  split; [eapply guarded_failsOrSucceeds;
          [apply DoSearchPosts_guarded|apply DoSearchPosts_runs|done]|].
  split; [eapply guarded_failsOrSucceeds;
          [apply DoSearchProfiles_guarded|apply DoSearchProfiles_runs|done]|].
  split; [eapply guarded_failsOrSucceeds;
          [apply DoStructuredSearchProfiles_guarded
          |apply DoStructuredSearchProfiles_runs|done]|].
  split; [eapply guarded_failsOrSucceeds;
          [apply DoSearchProfilesTypeahead_guarded
          |apply DoSearchProfilesTypeahead_runs|done]|].
  split; [eapply guarded_failsOrSucceeds;
          [apply DoStructuredSearchProfilesTypeahead_guarded
          |apply DoStructuredSearchProfilesTypeahead_runs|done]|].
  split; [apply doSearch_exactlyOne|].
  eexists. split; [apply doSearch_compiled|]. apply doSearch_outcome.
Qed.

End Claims.

(** ** The operations on the sample worlds *)

(** C2 on a request past the window: [(9999, 2)] is rejected, the plain
    post search returns the guard's error and submits nothing. *)
Lemma guard_rejects_9999_2 :
  DoSearchPosts (W := okWorld) () () "posts" "cats" 9999 2 =
    traced (None, Some InvalidParams) [EvCheckParams 9999 2] ∧
  submitted [EvCheckParams 9999 2] = [].
Proof.
  split; [|reflexivity].
  destruct (guard_runs_first (W := okWorld) () () "posts" "cats" 9999 2
              samplePosts sampleActors) as (_ & [_ G] & _).
  apply G. reflexivity.
Defined.

(** The passthrough operation submits its request without any guard
    call. *)
Lemma passthrough_skips_guard :
  submitted (trace (DoSearchGeneric (W := okWorld) () "posts" "*")) =
    [("posts", [])] ∧
  ¬ ∃ offset size,
      guardedBy offset size (DoSearchGeneric (W := okWorld) () "posts" "*").
Proof.
  split; [reflexivity|].
  intros (offset & size & (rest & Hrest) & _). discriminate Hrest.
Qed.

(** C3 on the plain post search for "cats": a boolean query with [must]
    and [filter] only. *)
Lemma plain_posts_shape :
  ∃ doc,
    compiles (DoSearchPosts (W := okWorld) () () "posts" "cats" 0 25) doc ∧
    boolShape doc (basicClause "cats")
      (Some [ {[ "range" := VMap {[ "created_at" := VMap
                   {[ "lte" := VString "2025-06-01T12:00:00.000Z" ]} ]} ]} ])
      {[ "must"; "filter" ]}.
Proof.
  destruct (shapes_of_the_documents (W := okWorld) () () "posts" "cats" 0 25
              samplePosts sampleActors eq_refl eq_refl eq_refl) as [H _].
  exact H.
Defined.

(** The document of the plain typeahead for "ali" has no boolean query,
    hence no [must] entry. *)
Lemma plain_typeahead_has_no_must :
  ∃ doc,
    compiles (DoSearchProfilesTypeahead (W := okWorld) () "profiles" "ali" 10)
      doc ∧
    boolQuery doc = None ∧
    path ["query"; "bool"; "must"] doc = None.
Proof. eexists. repeat split; reflexivity. Qed.

(** C5 on the sample request: one actor, empty tag and language sets; the
    filters are the range clause and one terms clause on [did]. *)
Lemma filters_of_sample_posts :
  ∃ doc range,
    compiles (DoStructuredSearchPosts (W := okWorld) () () "posts" samplePosts)
      doc ∧
    is_Some (range !! "lte") ∧
    path ["query"; "bool"; "filter"] doc =
      Some (VMaps (Some
        [ {[ "range" := VMap {[ "created_at" := VMap range ]} ]};
          {[ "terms" := VMap
               {[ "did" := VSlice (Some [VString "did:plc:abc"]) ]} ]} ])) ∧
    field "sort" doc =
      Some (VMap {[ "created_at" := VMap
                      {[ "order" := VString "desc" ]} ]}) ∧
    path ["query"; "bool"; "should"] doc = None.
Proof.
  exact (structured_post_filters (W := okWorld) () () "posts" samplePosts
           eq_refl).
Defined.

(** C6 on the sample requests. *)
Lemma relevance_of_sample_profiles :
  (∃ doc,
     compiles (DoSearchProfiles (W := okWorld) () () "profiles" "alice" 0 25)
       doc ∧ relevanceShape doc) ∧
  (∃ doc,
     compiles (DoStructuredSearchProfiles (W := okWorld) () () "profiles"
                 sampleActors) doc ∧ relevanceShape doc).
Proof.
  exact (profile_relevance (W := okWorld) () () "profiles" "alice" 0 25
           sampleActors eq_refl eq_refl).
Defined.

(** C7 on the typeahead for "ali", within [following = ["did:plc:x"]]:
    one terms filter on that set. *)
Lemma typeahead_of_ali :
  (∃ doc clause,
     compiles (DoSearchProfilesTypeahead (W := okWorld) () "profiles" "ali" 10)
       doc ∧
     field "query" doc = Some clause ∧ prefixMatch clause "ali") ∧
  (∃ doc b clause,
     compiles (DoStructuredSearchProfilesTypeahead (W := okWorld) ()
                 "profiles" sampleActors) doc ∧
     boolQuery doc = Some b ∧
     b !! "must" = Some clause ∧ prefixMatch clause "ali" ∧
     b !! "filter" = Some (VMaps (Some
       [ {[ "terms" := VMap
              {[ "did" := VSlice (Some [VString "did:plc:x"]) ]} ]} ]))).
Proof.
  exact (typeahead_clause (W := okWorld) () "profiles" "ali" 10 sampleActors
           eq_refl eq_refl).
Defined.

(** C8 on a backend that answers 503: the error prints the code. *)
Lemma backend_503_is_reported :
  result (doSearch (W := unavailableWorld) () "posts" (VMap ∅)) =
    (None, Some (errorString "search query error, code=503")).
Proof.
  destruct (executor_failure_mapping (W := unavailableWorld) () "posts"
              (VMap ∅) [] eq_refl) as (_ & H & _).
  exact (H {| StatusCode := 503; Body := [] |} eq_refl eq_refl).
Defined.

(** A response with status 101, which is not a 2xx status, is not
    reported as a backend error: its body is decoded and returned. *)
Lemma status_101_is_decoded :
  ¬ (200 ≤ 101 ≤ 299) ∧
  IsError {| StatusCode := 101; Body := [] |} = false ∧
  result (doSearch (W := switchingWorld) () "posts" (VMap ∅)) =
    (Some emptyResponse, None).
Proof. split; [lia|]. split; reflexivity. Qed.

(** C9 on the sample requests: empty tag and language sets, and an empty
    [following] set, behave as absent ones. *)
Lemma empty_sets_of_sample_requests :
  DoStructuredSearchPosts (W := okWorld) () () "posts"
    {| post_Query := "cats"; post_Offset := 0; post_Size := 25;
       post_From := Some "2024-01-01T00:00:00Z"; post_To := None;
       post_Actors := Some ["did:plc:abc"]; post_Tags := None;
       post_Langs := None |} =
  DoStructuredSearchPosts (W := okWorld) () () "posts" samplePosts ∧
  DoStructuredSearchProfilesTypeahead (W := okWorld) () "profiles"
    {| actor_Query := "ali"; actor_Following := None; actor_Offset := 0;
       actor_Size := 10; actor_Typeahead := true |} =
  DoStructuredSearchProfilesTypeahead (W := okWorld) () "profiles"
    {| actor_Query := "ali"; actor_Following := Some []; actor_Offset := 0;
       actor_Size := 10; actor_Typeahead := true |}.
Proof.
  destruct (empty_facets_are_absent (W := okWorld) () () "posts" samplePosts
              sampleActors) as (H1 & _).
  destruct (empty_facets_are_absent (W := okWorld) () () "profiles"
              samplePosts
              {| actor_Query := "ali"; actor_Following := Some [];
                 actor_Offset := 0; actor_Size := 10;
                 actor_Typeahead := true |}) as (_ & H2 & _).
  split; [exact (H1 _ eq_refl) | exact (proj2 (H2 _ eq_refl))].
Defined.

(** * Further properties of the operations *)

Section Effects.
Context `{W : World}.
Implicit Types (dir : Directory) (escli : Client) (index q : string).
Implicit Types (offset size : Z) (pq : PostSearchQuery Time).
Implicit Types (aq : ActorSearchQuery) (query doc : value).
Implicit Types (r : Traced Result) (pre : list Event).

(** ** The calls of the executor and of a guarded operation *)

Lemma doSearch_effects escli index query :
  trace (doSearch escli index query) =
  EvMarshal query ::
  match Marshal query with
  | inl _ => []
  | inr body =>
      EvSearch index body ::
      match Search escli index body with
      | inl _ => []
      | inr res => if IsError res then [] else [EvDecode (Body res)]
      end
  end.
Proof.
  unfold doSearch, callMarshal, callSearch, callDecode. cbn.
  destruct (Marshal query) as [?|body]; cbn; [done|].
  destruct (Search escli index body) as [?|res]; cbn; [done|].
  destruct (IsError res); cbn; [done|].
  by destruct (Decode (Body res)).
Qed.

Lemma guardedRun_cases r offset size pre escli index doc :
  guardedRun r offset size pre escli index doc →
  (∃ err, checkParams offset size = Some err ∧
          r = traced (None, Some err) [EvCheckParams offset size]) ∨
  (checkParams offset size = None ∧
   r = traced (result (doSearch escli index doc))
         (EvCheckParams offset size :: pre
          ++ trace (doSearch escli index doc))).
Proof.
  intros [[_ G] R].
  destruct (checkParams offset size) as [err|] eqn:H.
  - left. exists err. split; [done|]. by apply G.
  - right. split; [done|]. by apply R.
Qed.

Lemma DoStructuredSearchPosts_guardedRun dir escli index pq :
  guardedRun (DoStructuredSearchPosts dir escli index pq)
    (post_Offset pq) (post_Size pq)
    [EvParseQuery (post_Query pq); EvDatetimeNow] escli index
    (postsQuery (basicClause (ParseQuery dir (post_Query pq)).1)
       (structuredPostFilters DatetimeNow pq
          (ParseQuery dir (post_Query pq)).2)
       (post_Size pq) (post_Offset pq)).
Proof.
  split; [apply DoStructuredSearchPosts_guarded
         |apply DoStructuredSearchPosts_runs].
Qed.

Lemma DoSearchPosts_guardedRun dir escli index q offset size :
  guardedRun (DoSearchPosts dir escli index q offset size) offset size
    [EvParseQuery q; EvDatetimeNow] escli index
    (postsQuery (basicClause (ParseQuery dir q).1)
       (append (ParseQuery dir q).2
          {[ "range" := VMap {[ "created_at" := VMap
               {[ "lte" := VString DatetimeNow ]} ]} ]})
       size offset).
Proof. split; [apply DoSearchPosts_guarded|apply DoSearchPosts_runs]. Qed.

Lemma DoSearchProfiles_guardedRun dir escli index q offset size :
  guardedRun (DoSearchProfiles dir escli index q offset size) offset size
    [EvParseQuery q] escli index
    (profilesQuery (basicClause (ParseQuery dir q).1) (ParseQuery dir q).2
       size offset).
Proof.
  split; [apply DoSearchProfiles_guarded|apply DoSearchProfiles_runs].
Qed.

Lemma DoStructuredSearchProfiles_guardedRun dir escli index aq :
  guardedRun (DoStructuredSearchProfiles dir escli index aq)
    (actor_Offset aq) (actor_Size aq)
    [EvParseQuery (actor_Query aq)] escli index
    (profilesQuery (basicClause (ParseQuery dir (actor_Query aq)).1)
       (if len (actor_Following aq) >? 0
        then append (ParseQuery dir (actor_Query aq)).2
               (termsFilter "did" (actor_Following aq))
        else (ParseQuery dir (actor_Query aq)).2)
       (actor_Size aq) (actor_Offset aq)).
Proof.
  split; [apply DoStructuredSearchProfiles_guarded
         |apply DoStructuredSearchProfiles_runs].
Qed.

Lemma DoSearchProfilesTypeahead_guardedRun escli index q size :
  guardedRun (DoSearchProfilesTypeahead escli index q size) 0 size
    [] escli index
    (VMap {[ "query" := VMap (multiMatch q);
             "size" := VInt size;
             "sort" := VMap pagerankSort ]}).
Proof.
  split; [apply DoSearchProfilesTypeahead_guarded
         |apply DoSearchProfilesTypeahead_runs].
Qed.

Lemma DoStructuredSearchProfilesTypeahead_guardedRun escli index aq :
  guardedRun (DoStructuredSearchProfilesTypeahead escli index aq)
    (actor_Offset aq) (actor_Size aq) [] escli index
    (VMap {[ "query" := VMap {[ "bool" := VMap
               {[ "must" := VMap (multiMatch (actor_Query aq));
                  "filter" := VMaps
                    (if len (actor_Following aq) >? 0
                     then append None (termsFilter "did" (actor_Following aq))
                     else None) ]} ]};
             "size" := VInt (actor_Size aq);
             "from" := VInt (actor_Offset aq);
             "sort" := VMap pagerankSort ]}).
Proof.
  split; [apply DoStructuredSearchProfilesTypeahead_guarded
         |apply DoStructuredSearchProfilesTypeahead_runs].
Qed.

Lemma guardedRun_compiled r offset size pre escli index doc :
  guardedRun r offset size pre escli index doc → compiled pre = [] →
  compiled (trace r) =
    match checkParams offset size with
    | None => [doc]
    | Some _ => []
    end.
Proof.
  intros G Hpre.
  destruct (guardedRun_cases _ _ _ _ _ _ _ G) as [(err & -> & ->)|[-> ->]];
    [done|].
  rewrite doSearch_effects. unfold compiled in *. cbn.
  rewrite omap_app, Hpre. cbn.
  destruct (Marshal doc) as [?|body]; cbn; [done|].
  destruct (Search escli index body) as [?|res]; cbn; [done|].
  by destruct (IsError res).
Qed.

Lemma guardedRun_Forall_compiled (P : value → Prop) r offset size pre escli
  index doc :
  guardedRun r offset size pre escli index doc → compiled pre = [] →
  (checkParams offset size = None → P doc) →
  Forall P (compiled (trace r)).
Proof.
  intros G Hpre HP. rewrite (guardedRun_compiled _ _ _ _ _ _ _ G Hpre).
  destruct (checkParams offset size); [constructor|].
  constructor; [by apply HP|constructor].
Qed.

Lemma accepted_pagedAs doc offset size :
  field "from" doc = Some (VInt offset) →
  field "size" doc = Some (VInt size) →
  checkParams offset size = None → pagedAs doc offset size.
Proof.
  intros Hf Hs H. apply checkParams_accepts in H. unfold pagedAs.
  repeat split; (done || lia).
Qed.

(** ** Paging *)

(** X1. Every document that a paginated operation hands to the executor
    carries the request's offset as [from] and its size as [size], and
    these lie in the guard's window: [0 ≤ from], [0 ≤ size ≤ 250],
    [from + size ≤ 10000]. The plain typeahead sets [size] (at most 250)
    and no [from]; the passthrough sets none of [from], [size], [sort]. *)
Theorem paging_stays_in_window dir escli index q offset size pq aq :
  Forall (λ doc, pagedAs doc (post_Offset pq) (post_Size pq))
    (compiled (trace (DoStructuredSearchPosts dir escli index pq))) ∧
  Forall (λ doc, pagedAs doc offset size)
    (compiled (trace (DoSearchPosts dir escli index q offset size))) ∧
  Forall (λ doc, pagedAs doc offset size)
    (compiled (trace (DoSearchProfiles dir escli index q offset size))) ∧
  Forall (λ doc, pagedAs doc (actor_Offset aq) (actor_Size aq))
    (compiled (trace (DoStructuredSearchProfiles dir escli index aq))) ∧
  Forall (λ doc, pagedAs doc (actor_Offset aq) (actor_Size aq))
    (compiled (trace (DoStructuredSearchProfilesTypeahead escli index aq))) ∧
  Forall (λ doc, field "from" doc = None ∧
                 field "size" doc = Some (VInt size) ∧ 0 ≤ size ≤ 250)
    (compiled (trace (DoSearchProfilesTypeahead escli index q size))) ∧
  Forall (λ doc, field "from" doc = None ∧ field "size" doc = None ∧
                 field "sort" doc = None)
    (compiled (trace (DoSearchGeneric escli index q))).
Proof.
  split; [eapply guardedRun_Forall_compiled;
          [apply DoStructuredSearchPosts_guardedRun|done|];
          by apply accepted_pagedAs|].
  split; [eapply guardedRun_Forall_compiled;
          [apply DoSearchPosts_guardedRun|done|];
          by apply accepted_pagedAs|].
  split; [eapply guardedRun_Forall_compiled;
          [apply DoSearchProfiles_guardedRun|done|];
          by apply accepted_pagedAs|].
  split; [eapply guardedRun_Forall_compiled;
          [apply DoStructuredSearchProfiles_guardedRun|done|];
          by apply accepted_pagedAs|].
  split; [eapply guardedRun_Forall_compiled;
          [apply DoStructuredSearchProfilesTypeahead_guardedRun|done|];
          by apply accepted_pagedAs|].
  split.
  - eapply guardedRun_Forall_compiled;
      [apply DoSearchProfilesTypeahead_guardedRun|done|].
    intros H. apply checkParams_accepts in H.
    repeat split; (done || lia).
  - unfold DoSearchGeneric. rewrite doSearch_compiled.
    constructor; [by repeat split|constructor].
Qed.

(** ** Requests and decoded bodies *)

Lemma doSearch_submitted escli index query :
  submitted (trace (doSearch escli index query)) =
  omap (requestFor index) [query].
Proof.
  rewrite doSearch_effects. unfold submitted, requestFor. cbn.
  destruct (Marshal query) as [?|body]; cbn; [done|].
  destruct (Search escli index body) as [?|res]; cbn; [done|].
  by destruct (IsError res).
Qed.

Lemma doSearch_decoded escli index query :
  decoded (trace (doSearch escli index query)) =
  match Marshal query with
  | inl _ => []
  | inr body =>
      match Search escli index body with
      | inl _ => []
      | inr res => if IsError res then [] else [Body res]
      end
  end.
Proof.
  rewrite doSearch_effects. unfold decoded. cbn.
  destruct (Marshal query) as [?|body]; cbn; [done|].
  destruct (Search escli index body) as [?|res]; cbn; [done|].
  by destruct (IsError res).
Qed.

Lemma doSearch_singleShot escli index query :
  singleShot index (doSearch escli index query).
Proof.
  unfold singleShot.
  rewrite doSearch_compiled, doSearch_submitted, doSearch_decoded.
  split; [done|]. split; [done|].
  unfold requestFor. cbn.
  destruct (Marshal query) as [?|body]; cbn; [done|].
  destruct (Search escli index body) as [?|res]; cbn; [lia|].
  destruct (IsError res); cbn; lia.
Qed.

Lemma doSearch_answeredOk escli index query :
  Forall (answeredOk escli index (trace (doSearch escli index query)))
    (decoded (trace (doSearch escli index query))).
Proof.
  unfold answeredOk.
  rewrite doSearch_decoded, doSearch_submitted. unfold requestFor. cbn.
  destruct (Marshal query) as [?|body]; cbn; [constructor|].
  destruct (Search escli index body) as [?|res] eqn:Hs; cbn; [constructor|].
  destruct (IsError res) eqn:He; constructor; [|constructor].
  exists body, res. repeat split; try done. apply list_elem_of_here.
Qed.

Lemma guardedRun_traces r offset size pre escli index doc :
  guardedRun r offset size pre escli index doc →
  compiled pre = [] → submitted pre = [] → decoded pre = [] →
  (compiled (trace r) = [] ∧ submitted (trace r) = [] ∧
   decoded (trace r) = []) ∨
  (compiled (trace r) = compiled (trace (doSearch escli index doc)) ∧
   submitted (trace r) = submitted (trace (doSearch escli index doc)) ∧
   decoded (trace r) = decoded (trace (doSearch escli index doc))).
Proof.
  intros G Hc Hs Hd.
  destruct (guardedRun_cases _ _ _ _ _ _ _ G) as [(err & _ & ->)|[_ ->]];
    [by left|right].
  unfold compiled, submitted, decoded in *. cbn.
  by rewrite !omap_app, Hc, Hs, Hd.
Qed.

Lemma guardedRun_singleShot r offset size pre escli index doc :
  guardedRun r offset size pre escli index doc →
  compiled pre = [] → submitted pre = [] → decoded pre = [] →
  singleShot index r.
Proof.
  intros G Hc Hs Hd. unfold singleShot.
  destruct (guardedRun_traces _ _ _ _ _ _ _ G Hc Hs Hd)
    as [(-> & -> & ->)|(-> & -> & ->)]; [cbn; repeat split; lia|].
  apply doSearch_singleShot.
Qed.

Lemma guardedRun_answeredOk r offset size pre escli index doc :
  guardedRun r offset size pre escli index doc →
  compiled pre = [] → submitted pre = [] → decoded pre = [] →
  Forall (answeredOk escli index (trace r)) (decoded (trace r)).
Proof.
  intros G Hc Hs Hd. unfold answeredOk.
  destruct (guardedRun_traces _ _ _ _ _ _ _ G Hc Hs Hd)
    as [(_ & _ & ->)|(_ & -> & ->)]; [constructor|].
  apply doSearch_answeredOk.
Qed.

Lemma guardedRun_callsSearchOnce r offset size pre escli index doc :
  guardedRun r offset size pre escli index doc →
  compiled pre = [] → submitted pre = [] → decoded pre = [] →
  callsSearchOnce index (bool_decide (checkParams offset size = None)) r.
Proof.
  intros G Hc Hs Hd.
  destruct (guardedRun_singleShot _ _ _ _ _ _ _ G Hc Hs Hd) as (_ & ? & ?).
  split; [|done].
  rewrite (guardedRun_compiled _ _ _ _ _ _ _ G Hc).
  by destruct (checkParams offset size).
Qed.

(** X2. No operation calls the client in a loop. When the guard rejects,
    an operation hands no document to the serializer and never calls
    [escli.Search]; when the guard accepts, and always for the passthrough,
    it hands exactly one document to the serializer and calls
    [escli.Search] exactly once if that document serializes, on the
    caller's index with the serialized document as body, and not at all if
    it does not; the decoder is called at most as often as [escli.Search].
    What the client library sends over the network for one call is not
    part of this statement. *)
Theorem one_request_per_call dir escli index q offset size pq aq :
  callsSearchOnce index
    (bool_decide (checkParams (post_Offset pq) (post_Size pq) = None))
    (DoStructuredSearchPosts dir escli index pq) ∧
  callsSearchOnce index (bool_decide (checkParams offset size = None))
    (DoSearchPosts dir escli index q offset size) ∧
  callsSearchOnce index (bool_decide (checkParams offset size = None))
    (DoSearchProfiles dir escli index q offset size) ∧
  callsSearchOnce index
    (bool_decide (checkParams (actor_Offset aq) (actor_Size aq) = None))
    (DoStructuredSearchProfiles dir escli index aq) ∧
  callsSearchOnce index (bool_decide (checkParams 0 size = None))
    (DoSearchProfilesTypeahead escli index q size) ∧
  callsSearchOnce index
    (bool_decide (checkParams (actor_Offset aq) (actor_Size aq) = None))
    (DoStructuredSearchProfilesTypeahead escli index aq) ∧
  callsSearchOnce index true (DoSearchGeneric escli index q).
Proof.
  split; [eapply guardedRun_callsSearchOnce;
          [apply DoStructuredSearchPosts_guardedRun|done..]|].
  split; [eapply guardedRun_callsSearchOnce;
          [apply DoSearchPosts_guardedRun|done..]|].
  split; [eapply guardedRun_callsSearchOnce;
          [apply DoSearchProfiles_guardedRun|done..]|].
  split; [eapply guardedRun_callsSearchOnce;
          [apply DoStructuredSearchProfiles_guardedRun|done..]|].
  split; [eapply guardedRun_callsSearchOnce;
          [apply DoSearchProfilesTypeahead_guardedRun|done..]|].
  split; [eapply guardedRun_callsSearchOnce;
          [apply DoStructuredSearchProfilesTypeahead_guardedRun|done..]|].
  destruct (doSearch_singleShot escli index
              (VMap {[ "query" := VMap {[ "query_string" := VMap
                 {[ "query" := VString q;
                    "default_operator" := VString "and";
                    "analyze_wildcard" := VBool true;
                    "allow_leading_wildcard" := VBool false;
                    "lenient" := VBool true;
                    "default_field" := VString "everything" ]} ]} ]}))
    as (_ & ? & ?).
  split; [|done]. unfold DoSearchGeneric. by rewrite doSearch_compiled.
Qed.

(** X3. The only bodies an operation decodes are bodies of responses that
    are not error responses (status code 299 or below) to a request the
    same run submitted: the body of an error response is never decoded,
    and nothing is decoded when the request itself failed. *)
Theorem only_good_responses_are_decoded dir escli index q offset size pq aq :
  let decodesOnlyGood (r : Traced Result) :=
    Forall (answeredOk escli index (trace r)) (decoded (trace r)) in
  decodesOnlyGood (DoStructuredSearchPosts dir escli index pq) ∧
  decodesOnlyGood (DoSearchPosts dir escli index q offset size) ∧
  decodesOnlyGood (DoSearchProfiles dir escli index q offset size) ∧
  decodesOnlyGood (DoStructuredSearchProfiles dir escli index aq) ∧
  decodesOnlyGood (DoSearchProfilesTypeahead escli index q size) ∧
  decodesOnlyGood (DoStructuredSearchProfilesTypeahead escli index aq) ∧
  decodesOnlyGood (DoSearchGeneric escli index q).
Proof.
  cbv zeta.
  split; [eapply guardedRun_answeredOk;
          [apply DoStructuredSearchPosts_guardedRun|done..]|].
  split; [eapply guardedRun_answeredOk;
          [apply DoSearchPosts_guardedRun|done..]|].
  split; [eapply guardedRun_answeredOk;
          [apply DoSearchProfiles_guardedRun|done..]|].
  split; [eapply guardedRun_answeredOk;
          [apply DoStructuredSearchProfiles_guardedRun|done..]|].
  split; [eapply guardedRun_answeredOk;
          [apply DoSearchProfilesTypeahead_guardedRun|done..]|].
  split; [eapply guardedRun_answeredOk;
          [apply DoStructuredSearchProfilesTypeahead_guardedRun|done..]|].
  apply doSearch_answeredOk.
Qed.

(** ** Telling the errors apart *)

Lemma doSearch_not_InvalidParams escli index query :
  (result (doSearch escli index query)).2 ≠ Some InvalidParams.
Proof.
  rewrite doSearch_result.
  destruct (Marshal query) as [?|body]; [done|].
  destruct (Search escli index body) as [?|res]; [done|].
  destruct (StatusCode res >? 299); [by intros [= H]|].
  by destruct (Decode (Body res)).
Qed.

Lemma guardedRun_InvalidParams r offset size pre escli index doc :
  guardedRun r offset size pre escli index doc →
  (result r).2 = Some InvalidParams ↔ checkParams offset size ≠ None.
Proof.
  intros G.
  destruct (guardedRun_cases _ _ _ _ _ _ _ G) as [(err & H & ->)|[H ->]];
    rewrite H; cbn.
  - rewrite (checkParams_error _ _ _ H). by split.
  - split; [|done]. intros E. by apply doSearch_not_InvalidParams in E.
Qed.

(** X4. An operation returns the guard's error, "disallowed size/offset
    parameters", exactly when the guard rejects its pagination parameters:
    no failure of the serializer, the request, the backend or the decoder
    is ever reported as that error, and the passthrough never returns
    it. *)
Theorem invalid_params_means_rejected dir escli index q offset size pq aq :
  ((result (DoStructuredSearchPosts dir escli index pq)).2
     = Some InvalidParams ↔
   checkParams (post_Offset pq) (post_Size pq) ≠ None) ∧
  ((result (DoSearchPosts dir escli index q offset size)).2
     = Some InvalidParams ↔ checkParams offset size ≠ None) ∧
  ((result (DoSearchProfiles dir escli index q offset size)).2
     = Some InvalidParams ↔ checkParams offset size ≠ None) ∧
  ((result (DoStructuredSearchProfiles dir escli index aq)).2
     = Some InvalidParams ↔
   checkParams (actor_Offset aq) (actor_Size aq) ≠ None) ∧
  ((result (DoSearchProfilesTypeahead escli index q size)).2
     = Some InvalidParams ↔ checkParams 0 size ≠ None) ∧
  ((result (DoStructuredSearchProfilesTypeahead escli index aq)).2
     = Some InvalidParams ↔
   checkParams (actor_Offset aq) (actor_Size aq) ≠ None) ∧
  (result (DoSearchGeneric escli index q)).2 ≠ Some InvalidParams.
Proof.
  split; [eapply guardedRun_InvalidParams,
            DoStructuredSearchPosts_guardedRun|].
  split; [eapply guardedRun_InvalidParams, DoSearchPosts_guardedRun|].
  split; [eapply guardedRun_InvalidParams, DoSearchProfiles_guardedRun|].
  split; [eapply guardedRun_InvalidParams,
            DoStructuredSearchProfiles_guardedRun|].
  split; [eapply guardedRun_InvalidParams,
            DoSearchProfilesTypeahead_guardedRun|].
  split; [eapply guardedRun_InvalidParams,
            DoStructuredSearchProfilesTypeahead_guardedRun|].
  apply doSearch_not_InvalidParams.
Qed.

Lemma prefix_app (p x : string) : String.prefix p (p +:+ x) = true.
Proof.
  induction p as [|a p IH]; [by destruct x|].
  change (String a p +:+ x) with (String a (p +:+ x)). simpl.
  by destruct (Ascii.ascii_dec a a).
Qed.

Ltac other_text :=
  match goal with
  | |- context [String.prefix ?p (?p' +:+ ?x)] =>
      lazymatch p with
      | p' => fail
      | _ => replace (String.prefix p (p' +:+ x)) with false by reflexivity
      end
  end.

Lemma stageOf_texts (x : string) :
  stageOf ("failed to serialize query: " +:+ x) = Some Serializing ∧
  stageOf ("search query error: " +:+ x) = Some Requesting ∧
  stageOf ("search query error, code=" +:+ x) = Some Rejected ∧
  stageOf ("decoding search response: " +:+ x) = Some Decoding.
Proof.
  unfold stageOf.
  repeat split; repeat other_text; by rewrite prefix_app.
Qed.

(** X5. The fixed text at the start of an executor error names the step
    that failed: "failed to serialize query: " for the serializer,
    "search query error: " for the request, "search query error, code=" for
    an error response, "decoding search response: " for the decoder,
    whatever the text of the wrapped cause and whatever the status code;
    there is no error when no step fails, and the guard's error starts with
    none of these texts. *)
Theorem error_text_names_the_step escli index query :
  (result (doSearch escli index query)).2 ≫= (λ err, stageOf (Error err)) =
    failingStage escli index query ∧
  ((result (doSearch escli index query)).2 = None ↔
   failingStage escli index query = None) ∧
  stageOf (Error InvalidParams) = None.
Proof.
  rewrite doSearch_result. unfold failingStage, IsError.
  split; [|split; [|reflexivity]].
  - destruct (Marshal query) as [cause|body];
      [apply (stageOf_texts (Error cause))|].
    destruct (Search escli index body) as [cause|res];
      [apply (stageOf_texts (Error cause))|].
    destruct (StatusCode res >? 299);
      [apply (stageOf_texts (pretty (StatusCode res)))|].
    destruct (Decode (Body res)) as [cause|out];
      [apply (stageOf_texts (Error cause))|done].
  - destruct (Marshal query) as [cause|body]; [done|].
    destruct (Search escli index body) as [cause|res]; [done|].
    destruct (StatusCode res >? 299); [done|].
    by destruct (Decode (Body res)).
Qed.

(** ** Structured and plain variants *)

Lemma guardedRun_eq r r' offset size pre escli index doc :
  guardedRun r offset size pre escli index doc →
  guardedRun r' offset size pre escli index doc → r = r'.
Proof.
  intros [[_ G] R] [[_ G'] R'].
  destruct (checkParams offset size) as [err|] eqn:H.
  - by rewrite (G _ eq_refl), (G' _ eq_refl).
  - by rewrite (R eq_refl), (R' eq_refl).
Qed.

Lemma structuredPostFilters_plain (now : string) pq
  (filters : slice (gmap string value)) :
  post_From pq = None → post_To pq = None →
  len (post_Actors pq) = 0 → len (post_Tags pq) = 0 →
  len (post_Langs pq) = 0 →
  structuredPostFilters now pq filters =
  append filters
    {[ "range" := VMap {[ "created_at" := VMap
         {[ "lte" := VString now ]} ]} ]}.
Proof.
  intros Hf Ht Ha Hg Hl.
  unfold structuredPostFilters, createdAtRange.
  by rewrite Hf, Ht, Ha, Hg, Hl.
Qed.

(** X6. A structured post search with no [from], no [to] and no element in
    its actor, tag and language sets is the plain post search on the same
    query string, offset and size: the same calls, the same document, the
    same result. Likewise a structured profile search with no element in
    its [following] set is the plain profile search. *)
Theorem structured_without_facets_is_plain dir escli index pq aq :
  post_From pq = None → post_To pq = None →
  len (post_Actors pq) = 0 → len (post_Tags pq) = 0 →
  len (post_Langs pq) = 0 →
  len (actor_Following aq) = 0 →
  DoStructuredSearchPosts dir escli index pq =
    DoSearchPosts dir escli index (post_Query pq)
      (post_Offset pq) (post_Size pq) ∧
  DoStructuredSearchProfiles dir escli index aq =
    DoSearchProfiles dir escli index (actor_Query aq)
      (actor_Offset aq) (actor_Size aq).
Proof.
  intros Hf Ht Ha Hg Hl Hfo. split.
  - eapply guardedRun_eq; [apply DoStructuredSearchPosts_guardedRun|].
    rewrite (structuredPostFilters_plain _ _ _ Hf Ht Ha Hg Hl).
    apply DoSearchPosts_guardedRun.
  - eapply guardedRun_eq; [apply DoStructuredSearchProfiles_guardedRun|].
    rewrite Hfo. apply DoSearchProfiles_guardedRun.
Qed.

(** X7. The structured typeahead is not the plain typeahead with more
    inputs: for every accepted request, also one with offset 0 and no
    [following], the structured variant sends a boolean query with a
    [from] entry, the plain variant on the same text and size sends the
    bare clause with no [from], and the two documents differ. *)
Theorem typeahead_variants_differ escli index aq :
  checkParams (actor_Offset aq) (actor_Size aq) = None →
  ∃ docS docP,
    compiles (DoStructuredSearchProfilesTypeahead escli index aq) docS ∧
    compiles (DoSearchProfilesTypeahead escli index (actor_Query aq)
                (actor_Size aq)) docP ∧
    field "from" docS = Some (VInt (actor_Offset aq)) ∧
    field "from" docP = None ∧
    is_Some (boolQuery docS) ∧ boolQuery docP = None ∧
    docS ≠ docP.
Proof.
  intros Ha. pose proof (checkParams_zero_offset _ _ Ha) as H0.
  do 2 eexists.
  split; [eapply runs_compiles;
          [|apply (DoStructuredSearchProfilesTypeahead_runs
                     escli index _ Ha)]; reflexivity|].
  split; [eapply runs_compiles;
          [|apply (DoSearchProfilesTypeahead_runs escli index _ _ H0)];
          reflexivity|].
  split; [reflexivity|]. split; [reflexivity|].
  split; [by eexists|]. split; [reflexivity|].
  intros E. apply (f_equal (field "from")) in E. discriminate E.
Qed.

(** ** The scoring clause and the passthrough document *)

(** X8. The four post and profile operations score with the same clause:
    a [simple_query_string] whose [query] is the string returned by the
    normalizer (not the caller's raw text), over the single field
    [everything], with the flags AND, NOT, OR, PHRASE, PRECEDENCE,
    WHITESPACE, default operator [and], [lenient] on and
    [analyze_wildcard] off; it is the [must] of the boolean query. *)
Theorem simple_query_string_clause dir escli index q offset size pq aq :
  checkParams offset size = None →
  checkParams (post_Offset pq) (post_Size pq) = None →
  checkParams (actor_Offset aq) (actor_Size aq) = None →
  let scoresWith (r : Traced Result) (queryStr : string) :=
    ∃ doc clause, compiles r doc ∧
      path ["query"; "bool"; "must"] doc = Some clause ∧
      simpleQuery clause queryStr in
  scoresWith (DoSearchPosts dir escli index q offset size)
    (ParseQuery dir q).1 ∧
  scoresWith (DoStructuredSearchPosts dir escli index pq)
    (ParseQuery dir (post_Query pq)).1 ∧
  scoresWith (DoSearchProfiles dir escli index q offset size)
    (ParseQuery dir q).1 ∧
  scoresWith (DoStructuredSearchProfiles dir escli index aq)
    (ParseQuery dir (actor_Query aq)).1.
Proof.
  intros H Hp Ha. cbv zeta.
  split; [|split; [|split]]; do 2 eexists.
  - split; [eapply runs_compiles;
            [|apply (DoSearchPosts_runs dir escli index q _ _ H)];
            reflexivity|].
    split; [reflexivity|]. eexists. repeat split; reflexivity.
  - split; [eapply runs_compiles;
            [|apply (DoStructuredSearchPosts_runs dir escli index _ Hp)];
            reflexivity|].
    split; [reflexivity|]. eexists. repeat split; reflexivity.
  - split; [eapply runs_compiles;
            [|apply (DoSearchProfiles_runs dir escli index q _ _ H)];
            reflexivity|].
    split; [reflexivity|]. eexists. repeat split; reflexivity.
  - split; [eapply runs_compiles;
            [|apply (DoStructuredSearchProfiles_runs dir escli index _ Ha)];
            reflexivity|].
    split; [reflexivity|]. eexists. repeat split; reflexivity.
Qed.

(** X9. The passthrough always compiles a document: its only entry is
    [query], a [query_string] on the caller's text as given, with default
    operator [and], [analyze_wildcard] on, [allow_leading_wildcard] off,
    [lenient] on and default field [everything]. *)
Theorem passthrough_document escli index q :
  ∃ top m,
    compiles (DoSearchGeneric escli index q) (VMap top) ∧
    dom top = {[ "query" ]} ∧
    top !! "query" = Some (VMap {[ "query_string" := VMap m ]}) ∧
    dom m = {[ "query"; "default_operator"; "analyze_wildcard";
               "allow_leading_wildcard"; "lenient"; "default_field" ]} ∧
    m !! "query" = Some (VString q) ∧
    m !! "default_operator" = Some (VString "and") ∧
    m !! "analyze_wildcard" = Some (VBool true) ∧
    m !! "allow_leading_wildcard" = Some (VBool false) ∧
    m !! "lenient" = Some (VBool true) ∧
    m !! "default_field" = Some (VString "everything").
Proof.
  do 2 eexists.
  split; [apply doSearch_compiled|]. repeat split; reflexivity.
Qed.

(** ** Which collaborators an operation consults *)

Lemma doSearch_quiet escli index query :
  normalized (trace (doSearch escli index query)) = [] ∧
  clockReadings (trace (doSearch escli index query)) = 0%nat.
Proof.
  rewrite doSearch_effects. unfold normalized, clockReadings. cbn.
  destruct (Marshal query) as [?|body]; cbn; [done|].
  destruct (Search escli index body) as [?|res]; cbn; [done|].
  by destruct (IsError res).
Qed.

Lemma guardedRun_consults r offset size pre escli index doc :
  guardedRun r offset size pre escli index doc →
  normalized (trace r) =
    match checkParams offset size with
    | None => normalized pre
    | Some _ => []
    end ∧
  clockReadings (trace r) =
    match checkParams offset size with
    | None => clockReadings pre
    | Some _ => 0%nat
    end.
Proof.
  intros G.
  destruct (guardedRun_cases _ _ _ _ _ _ _ G) as [(err & -> & ->)|[-> ->]];
    [done|].
  destruct (doSearch_quiet escli index doc) as [Hn Hc].
  unfold normalized, clockReadings in *. cbn -[doSearch].
  rewrite !omap_app, length_app, Hn, Hc, app_nil_r. split; [done|lia].
Qed.

(** X10. An accepted post search calls the normalizer once, on the
    caller's query text, and reads the clock once; an accepted profile
    search calls the normalizer once and never reads the clock; the two
    typeahead operations and the passthrough never call the normalizer and
    never read the clock. A rejected request reaches neither. *)
Theorem collaborators_consulted dir escli index q offset size pq aq :
  let consults (r : Traced Result) (texts : list string) (reads : nat) :=
    normalized (trace r) = texts ∧ clockReadings (trace r) = reads in
  let whenAccepted {A : Type} (o s : Z) (yes no : A) :=
    match checkParams o s with None => yes | Some _ => no end in
  consults (DoStructuredSearchPosts dir escli index pq)
    (whenAccepted (post_Offset pq) (post_Size pq) [post_Query pq] [])
    (whenAccepted (post_Offset pq) (post_Size pq) 1%nat 0%nat) ∧
  consults (DoSearchPosts dir escli index q offset size)
    (whenAccepted offset size [q] [])
    (whenAccepted offset size 1%nat 0%nat) ∧
  consults (DoSearchProfiles dir escli index q offset size)
    (whenAccepted offset size [q] []) 0%nat ∧
  consults (DoStructuredSearchProfiles dir escli index aq)
    (whenAccepted (actor_Offset aq) (actor_Size aq) [actor_Query aq] [])
    0%nat ∧
  consults (DoSearchProfilesTypeahead escli index q size) [] 0%nat ∧
  consults (DoStructuredSearchProfilesTypeahead escli index aq) [] 0%nat ∧
  consults (DoSearchGeneric escli index q) [] 0%nat.
Proof.
  cbv zeta.
  split; [apply (guardedRun_consults _ _ _ _ _ _ _
                   (DoStructuredSearchPosts_guardedRun dir escli index pq))|].
  split; [apply (guardedRun_consults _ _ _ _ _ _ _
                   (DoSearchPosts_guardedRun dir escli index q offset size))|].
  split.
  { destruct (guardedRun_consults _ _ _ _ _ _ _
                (DoSearchProfiles_guardedRun dir escli index q offset size))
      as [-> ->].
    by destruct (checkParams offset size). }
  split.
  { destruct (guardedRun_consults _ _ _ _ _ _ _
                (DoStructuredSearchProfiles_guardedRun dir escli index aq))
      as [-> ->].
    by destruct (checkParams (actor_Offset aq) (actor_Size aq)). }
  split.
  { destruct (guardedRun_consults _ _ _ _ _ _ _
                (DoSearchProfilesTypeahead_guardedRun escli index q size))
      as [-> ->].
    by destruct (checkParams 0 size). }
  split.
  { destruct (guardedRun_consults _ _ _ _ _ _ _
                (DoStructuredSearchProfilesTypeahead_guardedRun
                   escli index aq)) as [-> ->].
    by destruct (checkParams (actor_Offset aq) (actor_Size aq)). }
  apply doSearch_quiet.
Qed.

(** ** When an operation succeeds *)

Lemma doSearch_succeeds escli index query (out : EsSearchResponse) :
  result (doSearch escli index query) = (Some out, None) ↔
  ∃ body res, Marshal query = inr body ∧
              Search escli index body = inr res ∧
              IsError res = false ∧ Decode (Body res) = inr out.
Proof.
  rewrite doSearch_result. unfold IsError. split.
  - destruct (Marshal query) as [?|body]; [done|].
    destruct (Search escli index body) as [?|res] eqn:Hs; [done|].
    destruct (StatusCode res >? 299) eqn:Hc; [done|].
    destruct (Decode (Body res)) as [?|out'] eqn:Hd; [done|].
    intros [= ->]. exists body, res. by rewrite Hs.
  - by intros (body & res & -> & -> & -> & ->).
Qed.

Lemma guardedRun_succeeds r offset size pre escli index doc
  (out : EsSearchResponse) :
  guardedRun r offset size pre escli index doc → compiled pre = [] →
  result r = (Some out, None) ↔ succeedsWith escli index r out.
Proof.
  intros G Hpre. unfold succeedsWith, compiles.
  rewrite (guardedRun_compiled _ _ _ _ _ _ _ G Hpre).
  destruct (guardedRun_cases _ _ _ _ _ _ _ G) as [(err & -> & ->)|[-> ->]].
  - split; [done|]. by intros (? & ? & ? & [=] & _).
  - cbn [result]. rewrite doSearch_succeeds. split.
    + intros (body & res & ?). by exists doc, body, res.
    + intros (doc' & body & res & [= <-] & ?). by exists body, res.
Qed.

(** X11. An operation returns a response exactly when it compiled a
    document, the document serialized, the request was answered with a
    response that is not an error response, and the body decoded; the
    response returned is the decoder's output, unchanged. *)
Theorem success_is_the_decoded_body dir escli index q offset size pq aq
  (out : EsSearchResponse) :
  let succeeds (r : Traced Result) :=
    result r = (Some out, None) ↔ succeedsWith escli index r out in
  succeeds (DoStructuredSearchPosts dir escli index pq) ∧
  succeeds (DoSearchPosts dir escli index q offset size) ∧
  succeeds (DoSearchProfiles dir escli index q offset size) ∧
  succeeds (DoStructuredSearchProfiles dir escli index aq) ∧
  succeeds (DoSearchProfilesTypeahead escli index q size) ∧
  succeeds (DoStructuredSearchProfilesTypeahead escli index aq) ∧
  succeeds (DoSearchGeneric escli index q).
Proof.
  cbv zeta.
  split; [eapply guardedRun_succeeds;
          [apply DoStructuredSearchPosts_guardedRun|done]|].
  split; [eapply guardedRun_succeeds;
          [apply DoSearchPosts_guardedRun|done]|].
  split; [eapply guardedRun_succeeds;
          [apply DoSearchProfiles_guardedRun|done]|].
  split; [eapply guardedRun_succeeds;
          [apply DoStructuredSearchProfiles_guardedRun|done]|].
  split; [eapply guardedRun_succeeds;
          [apply DoSearchProfilesTypeahead_guardedRun|done]|].
  split; [eapply guardedRun_succeeds;
          [apply DoStructuredSearchProfilesTypeahead_guardedRun|done]|].
  unfold DoSearchGeneric, succeedsWith, compiles.
  rewrite doSearch_compiled, doSearch_succeeds. split.
  - intros (body & res & ?). by eexists _, body, res.
  - intros (doc' & body & res & [= <-] & ?). by exists body, res.
Qed.

(** ** Serialization failure *)

(** X14. When the serializer fails on the document, the executor returns
    a nil response and an error that wraps the serializer's cause, with
    the text "failed to serialize query: " before the cause's text; no
    request is submitted and nothing is decoded. *)
Theorem serialization_failure escli index query (cause : error) :
  Marshal query = inl cause →
  ∃ err, result (doSearch escli index query) = (None, Some err) ∧
         Unwrap err = Some cause ∧
         Error err = "failed to serialize query: " +:+ Error cause ∧
         submitted (trace (doSearch escli index query)) = [] ∧
         decoded (trace (doSearch escli index query)) = [].
Proof.
  intros Hm.
  rewrite doSearch_result, doSearch_submitted, doSearch_decoded.
  unfold requestFor. cbn. rewrite Hm.
  eexists. by repeat split.
Qed.

End Effects.

(** ** The window of the guard *)

(** X12. The guard's window is closed downwards: when [(offset, size)] is
    accepted, so is every [(offset', size')] with [0 ≤ offset' ≤ offset]
    and [0 ≤ size' ≤ size]. *)
Theorem window_is_downward_closed (offset size offset' size' : Z) :
  checkParams offset size = None →
  0 ≤ offset' ≤ offset → 0 ≤ size' ≤ size →
  checkParams offset' size' = None.
Proof. rewrite !checkParams_accepts. lia. Qed.

(** X13. Overflow of [offset + size] never lets a request through: when
    the sum computed on [int] differs from the sum of the integers, the
    guard rejects. *)
Theorem overflow_is_rejected (offset size : Z) :
  Go.add offset size ≠ offset + size →
  checkParams offset size = Some InvalidParams.
Proof.
  intros Hne.
  destruct (checkParams offset size) as [err|] eqn:H.
  - by rewrite (checkParams_error _ _ _ H).
  - apply checkParams_accepts in H. destruct Hne.
    unfold Go.add. apply wrap_small. lia.
Qed.

(** ** The further properties on the sample worlds *)

(** X6 on a post request with no range and no facet. *)
Lemma bare_posts_are_plain :
  DoStructuredSearchPosts (W := okWorld) () () "posts" barePosts =
  DoSearchPosts (W := okWorld) () () "posts" "cats" 50 25.
Proof.
  exact (proj1 (structured_without_facets_is_plain (W := okWorld) () ()
                  "posts" barePosts bareActors
                  eq_refl eq_refl eq_refl eq_refl eq_refl eq_refl)).
Defined.

(** X7 on a typeahead request with offset 0 and no followed account. *)
Lemma bare_typeahead_variants_differ :
  ∃ docS docP,
    compiles (DoStructuredSearchProfilesTypeahead (W := okWorld) ()
                "profiles" bareActors) docS ∧
    compiles (DoSearchProfilesTypeahead (W := okWorld) () "profiles" "ali" 10)
      docP ∧
    field "from" docS = Some (VInt 0) ∧
    field "from" docP = None ∧
    is_Some (boolQuery docS) ∧ boolQuery docP = None ∧
    docS ≠ docP.
Proof.
  exact (typeahead_variants_differ (W := okWorld) () "profiles" bareActors
           eq_refl).
Defined.

(** X8 on the plain post search for "cats". *)
Lemma scoring_clause_of_cats :
  ∃ doc clause,
    compiles (DoSearchPosts (W := okWorld) () () "posts" "cats" 0 25) doc ∧
    path ["query"; "bool"; "must"] doc = Some clause ∧
    simpleQuery clause "cats".
Proof.
  exact (proj1 (simple_query_string_clause (W := okWorld) () () "posts"
                  "cats" 0 25 samplePosts sampleActors
                  eq_refl eq_refl eq_refl)).
Defined.

(** X12 below the last page: [(9750, 250)] is accepted, hence
    [(9000, 100)]. *)
Lemma earlier_page_is_accepted : checkParams 9000 100 = None.
Proof.
  apply (window_is_downward_closed 9750 250); [reflexivity|lia|lia].
Defined.

(** X13 on the largest [int] and 1: the sum wraps to the least [int], which
    passes the test on the sum, and the request is rejected all the same. *)
Lemma largest_int_is_rejected :
  Go.add (2 ^ 63 - 1) 1 = - 2 ^ 63 ∧
  checkParams (2 ^ 63 - 1) 1 = Some InvalidParams.
Proof.
  split; [reflexivity|].
  apply overflow_is_rejected. vm_compute. discriminate.
Defined.

(** X14 on a serializer that fails. *)
Lemma unserializable_query_is_reported :
  ∃ err,
    result (doSearch (W := unserializableWorld) () "posts" (VMap ∅)) =
      (None, Some err) ∧
    Unwrap err = Some (errorString "json: unsupported value") ∧
    Error err = "failed to serialize query: json: unsupported value" ∧
    submitted (trace (doSearch (W := unserializableWorld) () "posts"
                        (VMap ∅))) = [] ∧
    decoded (trace (doSearch (W := unserializableWorld) () "posts"
                      (VMap ∅))) = [].
Proof.
  exact (serialization_failure (W := unserializableWorld) () "posts" (VMap ∅)
           (errorString "json: unsupported value") eq_refl).
Defined.

(** * The bounds of the range clause as instants *)

Section Decimal.
Import time.

(** ** Decimal printing *)

Lemma append_cons (c : ascii) (s t : string) :
  String c s +:+ t = String c (s +:+ t).
Proof. reflexivity. Qed.

Lemma append_nil (t : string) : "" +:+ t = t.
Proof. reflexivity. Qed.

Lemma zeros_snoc (n : nat) : zeros n +:+ "0" = zeros (S n).
Proof.
  induction n as [|n IH]; [done|].
  change (zeros (S n)) with (String "0" (zeros n)).
  by rewrite append_cons, IH.
Qed.

Lemma append_assoc (a b c : string) : (a +:+ b) +:+ c = a +:+ b +:+ c.
Proof.
  induction a as [|x a IH]; [done|]. by rewrite !append_cons, IH.
Qed.

Lemma length_append (a b : string) :
  String.length (a +:+ b) = (String.length a + String.length b)%nat.
Proof.
  induction a as [|x a IH]; [done|]. rewrite append_cons. simpl.
  by rewrite IH.
Qed.

Lemma pretty_N_go_app (x : N) (s : string) :
  pretty_N_go x s = pretty_N_go x "" +:+ s.
Proof.
  revert s. induction (N.lt_wf_0 x) as [x _ IH]; intros s.
  destruct (decide (x = 0)%N) as [->|Hx]; [done|].
  assert (x `div` 10 < x)%N as Hlt by (apply N.div_lt; lia).
  rewrite !(pretty_N_go_step x) by lia.
  rewrite (IH _ Hlt (String _ s)), (IH _ Hlt (String _ "")).
  by rewrite append_assoc.
Qed.

Lemma pretty_N_digit (d : N) :
  (d < 10)%N → pretty d = String (pretty_N_char d) "".
Proof.
  intros Hd. unfold pretty, pretty_N.
  destruct (decide (d = 0)%N) as [->|Hd0]; [done|].
  rewrite pretty_N_go_step by lia.
  rewrite N.div_small, N.mod_small by lia. done.
Qed.

Lemma pretty_N_snoc (a d : N) :
  (0 < a)%N → (d < 10)%N →
  pretty (10 * a + d)%N = pretty a +:+ String (pretty_N_char d) "".
Proof.
  intros Ha Hd. unfold pretty, pretty_N.
  rewrite !decide_False by lia.
  rewrite pretty_N_go_step by lia.
  replace ((10 * a + d) `div` 10)%N with a
    by (apply (N.div_unique _ 10 a d); lia).
  replace ((10 * a + d) `mod` 10)%N with d
    by (apply (N.mod_unique _ 10 a d); lia).
  apply pretty_N_go_app.
Qed.

Lemma appendInt_digit (d : Z) :
  0 ≤ d < 10 → appendInt d 1 = String (digit d) "".
Proof.
  intros Hd. unfold appendInt.
  rewrite (proj2 (Z.ltb_ge d 0)) by lia.
  rewrite Z.abs_eq by lia.
  rewrite pretty_N_digit by lia. done.
Qed.

Lemma appendInt_snoc (w : nat) (a d : Z) :
  (1 ≤ w)%nat → 0 ≤ a → 0 ≤ d < 10 →
  appendInt (10 * a + d) (S w) = appendInt a w +:+ String (digit d) "".
Proof.
  intros Hw Ha Hd. unfold appendInt.
  rewrite !(proj2 (Z.ltb_ge _ 0)) by lia.
  rewrite !Z.abs_eq by lia. rewrite !append_nil.
  replace (Z.to_N (10 * a + d)) with (10 * Z.to_N a + Z.to_N d)%N by lia.
  destruct (decide (a = 0)) as [->|Ha0].
  - change (Z.to_N 0) with 0%N. rewrite N.mul_0_r, N.add_0_l.
    rewrite pretty_N_digit by lia.
    change (pretty 0%N) with "0".
    destruct w as [|w]; [lia|]. simpl String.length.
    replace (S (S w) - 1)%nat with (S w) by lia.
    replace (S w - 1)%nat with w by lia.
    by rewrite <- zeros_snoc, !append_assoc.
  - rewrite pretty_N_snoc by lia.
    rewrite length_append. simpl String.length.
    replace (S w - (String.length (pretty (Z.to_N a)) + 1))%nat
      with (w - String.length (pretty (Z.to_N a)))%nat by lia.
    by rewrite !append_assoc.
Qed.

Lemma appendInt_decimal (w : nat) (x : Z) :
  (1 ≤ w)%nat → 0 ≤ x < 10 ^ Z.of_nat w → appendInt x w = decimal w x.
Proof.
  revert x. induction w as [|w IH]; intros x Hw Hx; [lia|].
  destruct (decide (w = 0%nat)) as [->|Hw0].
  { change (10 ^ Z.of_nat 1) with 10 in Hx. simpl decimal.
    rewrite append_nil, Z.mod_small by lia. by apply appendInt_digit. }
  simpl decimal. rewrite <- IH; [|lia|].
  - rewrite <- appendInt_snoc; [|lia|..].
    + f_equal. apply Z.div_mod. lia.
    + apply Z.div_pos; lia.
    + apply Z.mod_pos_bound. lia.
  - rewrite Nat2Z.inj_succ, Z.pow_succ_r in Hx by lia.
    split; [apply Z.div_pos; lia|].
    apply Z.div_lt_upper_bound; lia.
Qed.

(** ** Reading the text of a time back *)

Lemma digitValue_digit (d : Z) : 0 ≤ d < 10 → digitValue (digit d) = Some d.
Proof.
  intros Hd.
  assert (d = 0 ∨ d = 1 ∨ d = 2 ∨ d = 3 ∨ d = 4 ∨ d = 5 ∨ d = 6 ∨ d = 7
          ∨ d = 8 ∨ d = 9) as Hc by lia.
  by repeat destruct Hc as [->|Hc]; [..|subst d].
Qed.

Lemma digit_is_zero (d : Z) :
  0 ≤ d < 10 → Ascii.eqb (digit d) "0" = (d =? 0).
Proof.
  intros Hd.
  assert (d = 0 ∨ d = 1 ∨ d = 2 ∨ d = 3 ∨ d = 4 ∨ d = 5 ∨ d = 6 ∨ d = 7
          ∨ d = 8 ∨ d = 9) as Hc by lia.
  by repeat destruct Hc as [->|Hc]; [..|subst d].
Qed.

Lemma readNumber_digits (ds : list Z) (acc : Z) :
  Forall (λ d, 0 ≤ d < 10) ds →
  readNumber (digit <$> ds) acc = Some (foldl (λ a d, 10 * a + d) acc ds).
Proof.
  intros H. revert acc. induction H as [|d ds Hd _ IH]; intros acc; [done|].
  cbn [fmap list_fmap readNumber]. rewrite digitValue_digit by done.
  apply IH.
Qed.

Ltac digits_ok :=
  repeat (apply List.Forall_cons;
          [first [assumption | apply Z.mod_pos_bound; lia]|]);
  apply List.Forall_nil.

Lemma trimmed_fraction (a b c : ascii) :
  Ascii.eqb a "." = false → Ascii.eqb b "." = false → Ascii.eqb c "." = false →
  (if String.eqb
        (trimZeros (String "." (String a (String b (String c ""))))) "."
   then ""
   else trimZeros (String "." (String a (String b (String c ""))))) =
  if Ascii.eqb c "0"
  then if Ascii.eqb b "0"
       then if Ascii.eqb a "0" then "" else String "." (String a "")
       else String "." (String a (String b ""))
  else String "." (String a (String b (String c ""))).
Proof.
  intros Ha Hb Hc. cbn [trimZeros].
  destruct (Ascii.eqb c "0"), (Ascii.eqb b "0"), (Ascii.eqb a "0");
    cbn; rewrite ?Ha, ?Hb, ?Hc; reflexivity.
Qed.

Lemma digit_not_dot (d : Z) : Ascii.eqb (digit d) "." = false.
Proof.
  unfold digit, pretty_N_char. by repeat case_match.
Qed.

Lemma readFraction_appendNano (ns : Z) :
  0 ≤ ns ≤ 999999999 →
  readFraction (appendNano ns 3 +:+ "Z") = Some (ns / 1000000).
Proof.
  intros Hns. unfold appendNano.
  destruct (Z.eqb_spec ns 0) as [->|Hne]; [done|].
  rewrite appendInt_decimal by (change (10 ^ Z.of_nat 9) with 1000000000; lia).
  simpl decimal. repeat (rewrite append_nil || rewrite append_cons).
  cbn [String.substring].
  set (d2 := (ns / 10 / 10 / 10 / 10 / 10 / 10 / 10 / 10) `mod` 10).
  set (d1 := (ns / 10 / 10 / 10 / 10 / 10 / 10 / 10) `mod` 10).
  set (d0 := (ns / 10 / 10 / 10 / 10 / 10 / 10) `mod` 10).
  assert (0 ≤ d2 < 10 ∧ 0 ≤ d1 < 10 ∧ 0 ≤ d0 < 10) as (H2 & H1 & H0)
    by (repeat split; apply Z.mod_pos_bound; lia).
  assert (ns / 1000000 = 100 * d2 + 10 * d1 + d0) as ->.
  { subst d2 d1 d0. Z.div_mod_to_equations. lia. }
  cbv zeta. rewrite trimmed_fraction by apply digit_not_dot.
  rewrite !digit_is_zero by done.
  destruct (Z.eqb_spec d0 0) as [E0|E0]; [destruct (Z.eqb_spec d1 0) as [E1|E1];
    [destruct (Z.eqb_spec d2 0) as [E2|E2]|]|];
    rewrite ?append_nil, ?append_cons; cbn [readFraction].
  - cbn. f_equal. lia.
  - change [digit d2] with (digit <$> [d2]).
    rewrite readNumber_digits by digits_ok.
    cbn. f_equal. lia.
  - change [digit d2; digit d1] with (digit <$> [d2; d1]).
    rewrite readNumber_digits by digits_ok.
    cbn. f_equal. lia.
  - change [digit d2; digit d1; digit d0] with (digit <$> [d2; d1; d0]).
    rewrite readNumber_digits by digits_ok.
    cbn. f_equal. lia.
Qed.

Lemma readDatetime_cons (y3 y2 y1 y0 m1 m0 d1 d0 h1 h0 i1 i0 s1 s0 : ascii)
  (rest : string) :
  readDatetime
    (String y3 (String y2 (String y1 (String y0 (String "-"
    (String m1 (String m0 (String "-"
    (String d1 (String d0 (String "T"
    (String h1 (String h0 (String ":"
    (String i1 (String i0 (String ":"
    (String s1 (String s0 rest))))))))))))))))))) =
  (year ← readNumber [y3; y2; y1; y0] 0;
   month ← readNumber [m1; m0] 0;
   day ← readNumber [d1; d0] 0;
   hour ← readNumber [h1; h0] 0;
   minute ← readNumber [i1; i0] 0;
   second ← readNumber [s1; s0] 0;
   millis ← readFraction rest;
   Some {| Year := year; Month := month; Day := day;
           Hour := hour; Minute := minute; Second := second;
           Nanosecond := millis * 1000000; ZoneOffset := 0 |}).
Proof. reflexivity. Qed.

Lemma Format_reads_back (t : Time) :
  utc t → readDatetime (Format t) = Some (truncateMs t).
Proof.
  destruct t as [Y Mo D h mi s ns off].
  unfold utc, truncateMs, Format. cbn [Year Month Day Hour Minute Second
    Nanosecond ZoneOffset].
  intros (HY & HMo & HD & Hh & Hmi & Hs & Hns & ->).
  rewrite (appendInt_decimal 4 Y)
    by (change (10 ^ Z.of_nat 4) with 10000; lia).
  rewrite !(appendInt_decimal 2)
    by (change (10 ^ Z.of_nat 2) with 100; lia).
  simpl decimal. repeat (rewrite append_nil || rewrite append_cons).
  rewrite readDatetime_cons.
  repeat match goal with
  | |- context [readNumber [digit ?a; digit ?b; digit ?c; digit ?d] 0] =>
      change [digit a; digit b; digit c; digit d]
        with (digit <$> [a; b; c; d]);
      rewrite readNumber_digits by digits_ok
  | |- context [readNumber [digit ?a; digit ?b] 0] =>
      change [digit a; digit b] with (digit <$> [a; b]);
      rewrite readNumber_digits by digits_ok
  end.
  rewrite readFraction_appendNano by done.
  cbn. f_equal. f_equal; Z.div_mod_to_equations; lia.
Qed.

End Decimal.

Section RangeBounds.
Context `{W : World}.

(** C4 (as amended). The filter list of a structured post search holds,
    right after the normalizer's filters, a [range] clause on [created_at]
    with no other entry than [lte] and [gte]. The upper bound [lte] is
    always present: it is the clock reading of the compilation when the
    request has no [to]; when the request has a [to] that is a time in UTC,
    it is the text of that [to] in the atproto layout, which denotes the
    [to] cut to whole milliseconds. The lower bound [gte] is present
    exactly when the request has a [from]; when that [from] is a time in
    UTC, it is its text in the atproto layout, which denotes the [from] cut
    to whole milliseconds. The plain post search has the upper bound at the
    clock reading and no lower bound. *)
Theorem created_at_range_of_utc_times (dir : Directory) (escli : Client)
  (index q : string) (offset size : Z) (pq : PostSearchQuery time.Time) :
  checkParams (post_Offset pq) (post_Size pq) = None →
  checkParams offset size = None →
  (∃ doc range rest,
     compiles (DoStructuredSearchPosts (W := goTime W) dir escli index pq)
       doc ∧
     path ["query"; "bool"; "filter"] doc =
       Some (VMaps (Some (elems (ParseQuery dir (post_Query pq)).2
         ++ {[ "range" := VMap {[ "created_at" := VMap range ]} ]}
         :: rest))) ∧
     is_Some (range !! "lte") ∧
     (post_To pq = None → range !! "lte" = Some (VString DatetimeNow)) ∧
     (∀ t, post_To pq = Some t → utc t → boundIs range "lte" t) ∧
     (is_Some (range !! "gte") ↔ is_Some (post_From pq)) ∧
     (∀ t, post_From pq = Some t → utc t → boundIs range "gte" t) ∧
     dom range = match post_From pq with
                 | Some _ => {[ "gte"; "lte" ]}
                 | None => {[ "lte" ]}
                 end) ∧
  (∃ doc,
     compiles (DoSearchPosts (W := goTime W) dir escli index q offset size)
       doc ∧
     path ["query"; "bool"; "filter"] doc =
       Some (VMaps (Some (elems (ParseQuery dir q).2
         ++ [ {[ "range" := VMap {[ "created_at" := VMap
                  {[ "lte" := VString DatetimeNow ]} ]} ]} ])))).
Proof.
  intros Hp H.
  destruct (created_at_range (W := goTime W) dir escli index q offset size
              pq Hp H)
    as [(doc & range & rest & Hc & Hpath & Hlte & Hgte & Hdom) Hplain].
  change (@Time (goTime W)) with time.Time in *.
  change (@Format (goTime W)) with time.Format in *.
  change (@DatetimeNow (goTime W)) with (@DatetimeNow W) in *.
  split; [|exact Hplain].
  exists doc, range, rest.
  split; [exact Hc|]. split; [exact Hpath|].
  split; [by rewrite Hlte|].
  split; [intros Hto; by rewrite Hlte, Hto|].
  split.
  { intros t Hto Hutc. split; [by rewrite Hlte, Hto|].
    by apply Format_reads_back. }
  split; [rewrite Hgte; by rewrite fmap_is_Some|].
  split; [|exact Hdom].
  intros t Hfrom Hutc. split; [by rewrite Hgte, Hfrom|].
  by apply Format_reads_back.
Qed.

End RangeBounds.

(** C4 on a request from 2024-01-01T00:00:00Z with no [to]: the lower bound
    is the text of that instant and denotes it, the upper bound is the
    clock reading. *)
Lemma range_from_new_year_2024 :
  ∃ doc range rest,
    compiles (DoStructuredSearchPosts (W := goTime okWorld) () () "posts"
                (postsFrom newYear2024)) doc ∧
    path ["query"; "bool"; "filter"] doc =
      Some (VMaps (Some
        ({[ "range" := VMap {[ "created_at" := VMap range ]} ]} :: rest))) ∧
    range !! "lte" = Some (VString "2025-06-01T12:00:00.000Z") ∧
    range !! "gte" = Some (VString "2024-01-01T00:00:00Z") ∧
    readDatetime "2024-01-01T00:00:00Z" = Some newYear2024 ∧
    dom range = {[ "gte"; "lte" ]}.
Proof.
  destruct (created_at_range_of_utc_times (W := okWorld) () () "posts" "cats"
              0 25 (postsFrom newYear2024) eq_refl eq_refl)
    as [(doc & range & rest & Hc & Hpath & _ & Hlte & _ & _ & Hgte & Hdom) _].
  exists doc, range, rest.
  split; [exact Hc|]. split; [exact Hpath|].
  split; [exact (Hlte eq_refl)|].
  assert (utc newYear2024) as Hutc by (unfold utc; simpl; lia).
  destruct (Hgte newYear2024 eq_refl Hutc) as [Htext Hread].
  split; [exact Htext|]. split; [exact Hread|exact Hdom].
Defined.

(** The lower bound is not always the caller's [from]. For a [from] of
    00:00:00.123456789 UTC the bound denotes 00:00:00.123 UTC, another
    instant. For a [from] of 02:00:00 at two hours east of UTC the bound is
    the same date and clock marked as UTC, two hours after the [from]. *)
Lemma bound_is_not_the_callers_instant :
  (∃ doc range rest,
     compiles (DoStructuredSearchPosts (W := goTime okWorld) () () "posts"
                 (postsFrom newYear2024Nanos)) doc ∧
     path ["query"; "bool"; "filter"] doc =
       Some (VMaps (Some
         ({[ "range" := VMap {[ "created_at" := VMap range ]} ]} :: rest))) ∧
     range !! "gte" = Some (VString "2024-01-01T00:00:00.123Z") ∧
     readDatetime "2024-01-01T00:00:00.123Z"
       = Some (truncateMs newYear2024Nanos) ∧
     time.ZoneOffset newYear2024Nanos = 0 ∧
     truncateMs newYear2024Nanos ≠ newYear2024Nanos) ∧
  (∃ doc range rest,
     compiles (DoStructuredSearchPosts (W := goTime okWorld) () () "posts"
                 (postsFrom newYear2024Zoned)) doc ∧
     path ["query"; "bool"; "filter"] doc =
       Some (VMaps (Some
         ({[ "range" := VMap {[ "created_at" := VMap range ]} ]} :: rest))) ∧
     range !! "gte" = Some (VString "2024-01-01T02:00:00Z") ∧
     readDatetime "2024-01-01T02:00:00Z" =
       Some {| time.Year := 2024; time.Month := 1; time.Day := 1;
               time.Hour := 2; time.Minute := 0; time.Second := 0;
               time.Nanosecond := 0; time.ZoneOffset := 0 |} ∧
     newYear2024Zoned =
       {| time.Year := 2024; time.Month := 1; time.Day := 1;
          time.Hour := 2; time.Minute := 0; time.Second := 0;
          time.Nanosecond := 0; time.ZoneOffset := 7200 |}).
Proof.
  split.
  - do 3 eexists. split; [reflexivity|]. split; [reflexivity|].
    split; [reflexivity|]. split; [reflexivity|]. split; [reflexivity|].
    discriminate.
  - do 3 eexists. split; [reflexivity|]. split; [reflexivity|].
    split; [reflexivity|]. split; reflexivity.
Qed.
